(** * weather_automation: a shallow embedding of [app.py]

    The program fetches the METAR and TAF reports of an airport, decodes the
    METAR and posts a summary to a Slack webhook.  The embedding follows the
    source function by function.

    Modelling conventions.
    - A Python [str] is a [string]; a character stands for its code point,
      so the model covers the code points below 256.
    - The libraries the program calls ([requests], [xml.etree.ElementTree],
      [metar], [str.upper]) are not part of the repository: what they answer
      is a field of [World], and a call may answer with any exception.  A
      world describes a run in which every library call comes back; a call
      that blocks for ever has no world.  What the program does with the
      answers ([raise_for_status], [findall], [strip], [in], [re.match] on
      the one pattern used, [str.join]) is written out.
    - [print] and [logging] are taken to succeed.
    - Module globals and everything the process emits (requests, log records,
      printed lines, calls of the decoder library) live in [State]; every
      effectful function threads it. *)

From Stdlib Require Import List String Ascii Bool ZArith NArith Lia Permutation.
From Stdlib Require Import DecimalString.
Import ListNotations.
#[local] Set Warnings "-register-all".
Open Scope string_scope.

(** ** Characters and the string operations the program uses *)

Definition code (c : ascii) : N := N_of_ascii c.

Definition LF : ascii := ascii_of_N 10.

(** [str.isspace] on one code point below 256: TAB..CR, FS..US, SPACE,
    NEL (0x85) and NBSP (0xA0). *)
Definition is_space (c : ascii) : bool :=
  let n := code c in
  ((9 <=? n) && (n <=? 13) || (28 <=? n) && (n <=? 32)
   || (n =? 133) || (n =? 160))%N.

(** [s.lstrip()] *)
Fixpoint lstrip (s : string) : string :=
  match s with
  | EmptyString => EmptyString
  | String c r => if is_space c then lstrip r else s
  end.

(** [s.rstrip()] *)
Fixpoint rstrip (s : string) : string :=
  match s with
  | EmptyString => EmptyString
  | String c r =>
      match rstrip r with
      | EmptyString => if is_space c then EmptyString else String c EmptyString
      | r' => String c r'
      end
  end.

(** [s.strip()] *)
Definition strip (s : string) : string := rstrip (lstrip s).

(** Python truthiness of a [str]: non-empty. *)
Definition truthy (s : string) : bool :=
  match s with EmptyString => false | _ => true end.

(** Every character is whitespace. *)
Fixpoint all_space (s : string) : bool :=
  match s with
  | EmptyString => true
  | String c r => is_space c && all_space r
  end.

Definition head_is_space (s : string) : bool :=
  match s with EmptyString => false | String c _ => is_space c end.

Fixpoint last_is_space (s : string) : bool :=
  match s with
  | EmptyString => false
  | String c EmptyString => is_space c
  | String _ r => last_is_space r
  end.

(** [s.startswith(p)] *)
Fixpoint startswith (p s : string) : bool :=
  match p, s with
  | EmptyString, _ => true
  | String a p', String b s' => Ascii.eqb a b && startswith p' s'
  | String _ _, EmptyString => false
  end.

(** [needle in hay] on strings: [needle] occurs at some offset of [hay]. *)
Fixpoint str_in (needle hay : string) : bool :=
  startswith needle hay ||
  match hay with
  | EmptyString => false
  | String _ hay' => str_in needle hay'
  end.

(** [sep.join(parts)] on a list of strings. *)
Fixpoint join (sep : string) (parts : list string) : string :=
  match parts with
  | [] => ""
  | [p] => p
  | p :: rest => p ++ sep ++ join sep rest
  end.

(** [str(n)] for an [int]. *)
Definition str_of_int (n : Z) : string := NilZero.string_of_int (Z.to_int n).

(** ** Regular expressions: the fragment of [re] that [is_valid_icao] uses *)

Module Re.

Inductive regex : Type :=
| Bol                                  (* ^ *)
| Eol                                  (* $ *)
| Range (lo hi : ascii)                (* [lo-hi] *)
| Repeat (n : nat) (r : regex)         (* r{n} *)
| Seq (r1 r2 : regex).                 (* r1 r2 *)

(** A position in the subject: how many characters are behind it and what
    is still ahead. *)
Definition pos : Type := (nat * string)%type.

(** Without [re.MULTILINE], [^] matches only at the start of the subject
    and [$] matches at its end and just before a newline that is its last
    character. *)
Definition at_bol (p : pos) : bool := Nat.eqb (fst p) 0.
Definition at_eol (p : pos) : bool :=
  match snd p with
  | EmptyString => true
  | String c EmptyString => Ascii.eqb c LF
  | _ => false
  end.

Definition in_range (lo hi c : ascii) : bool :=
  ((code lo <=? code c) && (code c <=? code hi))%N.

(** Backtracking matcher in continuation style: [k] is what has to match
    after [r]. *)
Fixpoint matches (r : regex) (p : pos) (k : pos -> bool) {struct r} : bool :=
  match r with
  | Bol => at_bol p && k p
  | Eol => at_eol p && k p
  | Range lo hi =>
      match snd p with
      | String c rest => in_range lo hi c && k (S (fst p), rest)
      | EmptyString => false
      end
  | Repeat n r1 =>
      (fix rep (n : nat) (p : pos) : bool :=
         match n with
         | O => k p
         | S n' => matches r1 p (rep n')
         end) n p
  | Seq r1 r2 => matches r1 p (fun p' => matches r2 p' k)
  end.

(** [bool(re.match(r, s))]: a match anchored at offset 0, of any length. *)
Definition re_match (r : regex) (s : string) : bool :=
  matches r (0, s) (fun _ => true).

End Re.

(** The pattern [r"^[A-Z]{4}$"]. *)
Definition icao_pattern : Re.regex :=
  Re.Seq Re.Bol (Re.Seq (Re.Repeat 4 (Re.Range "A" "Z")) Re.Eol).

(** [is_valid_icao]: [bool(re.match(r"^[A-Z]{4}$", icao))]. *)
Definition is_valid_icao (icao : string) : bool := Re.re_match icao_pattern icao.

(** The reading of the specification: exactly four uppercase ASCII letters. *)
Definition is_upper (c : ascii) : bool := Re.in_range "A" "Z" c.

Definition four_uppercase (s : string) : bool :=
  match s with
  | String a (String b (String c (String d EmptyString))) =>
      is_upper a && is_upper b && is_upper c && is_upper d
  | _ => false
  end.

(** ** Exceptions *)

(** The exception classes the program can meet, and the part of Python's
    class hierarchy that its [except] clauses look at. *)
Inductive exn_class : Type :=
| Exception_ | RequestException | HTTPError | ConnectionError | Timeout
| TooManyRedirects | ParseError | TypeError | KeyError | ParserError
| OSError | LocationParseError | UnicodeEncodeError.

Definition exn_class_eqb (a b : exn_class) : bool :=
  match a, b with
  | Exception_, Exception_ | RequestException, RequestException
  | HTTPError, HTTPError | ConnectionError, ConnectionError
  | Timeout, Timeout | TooManyRedirects, TooManyRedirects
  | ParseError, ParseError | TypeError, TypeError | KeyError, KeyError
  | ParserError, ParserError | OSError, OSError
  | LocationParseError, LocationParseError
  | UnicodeEncodeError, UnicodeEncodeError => true
  | _, _ => false
  end.

(** [issubclass c base] *)
Definition issubclass (c base : exn_class) : bool :=
  match base with
  | Exception_ => true
  | RequestException =>
      match c with
      | RequestException | HTTPError | ConnectionError | Timeout
      | TooManyRedirects => true
      | _ => false
      end
  | OSError =>
      match c with
      | OSError | RequestException | HTTPError | ConnectionError | Timeout
      | TooManyRedirects => true
      | _ => false
      end
  | _ => exn_class_eqb c base
  end.

Record exn : Type := mkExn { exn_cls : exn_class; exn_msg : string }.

(** [isinstance(e, base)] and [str(e)] *)
Definition isinstance (e : exn) (base : exn_class) : bool :=
  issubclass (exn_cls e) base.
Definition str_exn (e : exn) : string := exn_msg e.

Inductive result (A : Type) : Type :=
| Ok (a : A)
| Raise (e : exn).
Arguments Ok {A} a.
Arguments Raise {A} e.

(** ** XML trees and [findall] *)

Module ET.

(** An [Element]: its tag, its [text] attribute ([None] when the element
    has no character data before its first child) and its children. *)
Inductive Element : Type :=
| Elem (tag : string) (text : option string) (children : list Element).

Definition tag (e : Element) : string := let 'Elem t _ _ := e in t.
Definition text (e : Element) : option string := let 'Elem _ x _ := e in x.
Definition children (e : Element) : list Element := let 'Elem _ _ cs := e in cs.

(** [e.iter(tag)]: [e] and its descendants with that tag, in document
    order. *)
Fixpoint iter (t : string) (e : Element) : list Element :=
  match e with
  | Elem t' _ cs =>
      (if String.eqb t' t then [e] else []) ++ flat_map (iter t) cs
  end.

(** The steps of an ElementPath expression that the program uses. *)
Inductive step : Type :=
| Self                        (* .     *)
| Descendant (t : string)     (* //tag *)
| Child (t : string).         (* /tag  *)

(** The children of [elem] with tag [t], in order. *)
Definition has_tag (t : string) (e : Element) : bool := String.eqb (tag e) t.
Definition children_tagged (t : string) (elem : Element) : list Element :=
  filter (has_tag t) (children elem).

(** One selector applied to the current result list.  [//tag] walks
    [elem.iter(tag)] and drops [elem] itself, which [iter] can only yield
    first; [/tag] keeps the children with that tag. *)
Definition select (s : step) (res : list Element) : list Element :=
  match s with
  | Self => res
  | Descendant t => flat_map (fun elem => flat_map (iter t) (children elem)) res
  | Child t => flat_map (children_tagged t) res
  end.

(** [elem.findall(path)]: the selectors applied in turn, from [[elem]]. *)
Definition findall (path : list step) (elem : Element) : list Element :=
  fold_left (fun res s => select s res) path [elem].

End ET.

(** The path [".//TAF/text"]. *)
Definition taf_text_path : list ET.step :=
  [ET.Self; ET.Descendant "TAF"; ET.Child "text"].

(** ** JSON values, for the webhook payload *)

Inductive json : Type :=
| JStr (s : string)
| JBool (b : bool)
| JList (l : list json)
| JDict (l : list (string * json)).

(** ** The outside world *)

Record Response : Type := mkResponse {
  status_code : Z;
  reason : string;
  resp_url : string;
  resp_text : string
}.

(** The answers of the libraries the program calls, in one run.  A call
    answers with a value or with an exception of any class: [requests]
    raises a [RequestException] for the failures it handles itself, and lets
    others through (an [OSError] from a missing CA bundle, urllib3's
    [LocationParseError] from a redirect to a host it cannot parse). *)
Record World : Type := mkWorld {
  (** [requests.get(url)]: a response, or the exception raised *)
  http_get : string -> Response + exn;
  (** [requests.post(url, json=payload)] *)
  http_post : string -> json -> Response + exn;
  (** [ET.fromstring(text)]: the root element, or the exception raised, a
      [ParseError] for text that is not well-formed *)
  xml_fromstring : string -> ET.Element + exn;
  (** [Metar(code).string()]: the decoded report, or whatever exception the
      decoder library raises.  The library completes the day of the report
      with the month and year of the current date, so that its answer is
      a matter of the run and not of the text alone. *)
  metar_string : string -> string + exn;
  (** [str.upper] *)
  str_upper : string -> string
}.

(** ** Process state and the monad of effects *)

Inductive event : Type :=
| EvGet (url : string)
| EvPost (url : string) (payload : json)
| EvLogError (msg : string)
| EvLogInfo (msg : string)
| EvPrint (line : string)
| EvMetar (code : string).

Record State : Type := mkState {
  SLACK_WEBHOOK_URL : option string;   (* module global, [os.getenv] result *)
  trace : list event                   (* everything emitted so far *)
}.

Definition M (A : Type) : Type := State -> result A * State.

Definition ret {A} (a : A) : M A := fun st => (Ok a, st).

Definition bind {A B} (m : M A) (k : A -> M B) : M B :=
  fun st =>
    match m st with
    | (Ok a, st') => k a st'
    | (Raise e, st') => (Raise e, st')
    end.

Definition raise {A} (e : exn) : M A := fun st => (Raise e, st).

(** [try: body except classes as e: handler(e)] *)
Definition try_except {A} (body : M A) (catches : exn -> bool)
    (handler : exn -> M A) : M A :=
  fun st =>
    match body st with
    | (Ok a, st') => (Ok a, st')
    | (Raise e, st') => if catches e then handler e st' else (Raise e, st')
    end.

Definition emit (ev : event) : M unit :=
  fun st => (Ok tt, mkState (SLACK_WEBHOOK_URL st) (trace st ++ [ev])).

Definition read_webhook : M (option string) :=
  fun st => (Ok (SLACK_WEBHOOK_URL st), st).

Declare Scope prog_scope.
Delimit Scope prog_scope with prog.
Notation "x <- c1 ;; c2" := (bind c1 (fun x => c2))
  (at level 61, c1 at next level, right associativity) : prog_scope.
Notation "c1 ;; c2" := (bind c1 (fun _ => c2))
  (at level 61, right associativity) : prog_scope.
Open Scope prog_scope.

Definition logging_error (msg : string) : M unit := emit (EvLogError msg).
Definition logging_info (msg : string) : M unit := emit (EvLogInfo msg).
Definition print (line : string) : M unit := emit (EvPrint line).

(** [Response.raise_for_status]: raises [HTTPError] for a 4xx or 5xx
    status, and only then. *)
Definition is_error_status (r : Response) : bool :=
  ((400 <=? status_code r) && (status_code r <? 600))%Z.

Definition http_error_msg (r : Response) : string :=
  str_of_int (status_code r)
  ++ (if (status_code r <? 500)%Z then " Client Error: " else " Server Error: ")
  ++ reason r ++ " for url: " ++ resp_url r.

Definition raise_for_status (r : Response) : M unit :=
  if is_error_status r then raise (mkExn HTTPError (http_error_msg r))
  else ret tt.

(** ["\n".join(parts)] where an item may be [None]: [str.join] raises
    [TypeError] at the first item that is not a string. *)
Fixpoint first_none (i : nat) (parts : list (option string)) : option nat :=
  match parts with
  | [] => None
  | None :: _ => Some i
  | Some _ :: rest => first_none (S i) rest
  end.

Fixpoint somes (parts : list (option string)) : list string :=
  match parts with
  | [] => []
  | Some s :: rest => s :: somes rest
  | None :: rest => somes rest
  end.

Definition join_type_error (i : nat) : exn :=
  mkExn TypeError
    ("sequence item " ++ str_of_int (Z.of_nat i)
     ++ ": expected str instance, NoneType found").

Definition str_join (sep : string) (parts : list (option string)) : M string :=
  match first_none 0 parts with
  | Some i => raise (join_type_error i)
  | None => ret (join sep (somes parts))
  end.

(** [d[key]] on a [dict] with string keys: [KeyError] when absent. *)
Definition dict : Type := list (string * string).

Fixpoint dict_get (d : dict) (key : string) : option string :=
  match d with
  | [] => None
  | (k, v) :: rest => if String.eqb k key then Some v else dict_get rest key
  end.

Definition getitem (d : dict) (key : string) : M string :=
  match dict_get d key with
  | Some v => ret v
  | None => raise (mkExn KeyError ("'" ++ key ++ "'"))
  end.

(** ** The program *)

Section Program.

Variable w : World.

(** [requests.get(url)] and [requests.post(url, json=payload)]: the
    request is recorded, then the world answers. *)
Definition requests_get (url : string) : M Response :=
  emit (EvGet url) ;;
  match http_get w url with
  | inl r => ret r
  | inr e => raise e
  end.

Definition requests_post (url : string) (payload : json) : M Response :=
  emit (EvPost url payload) ;;
  match http_post w url payload with
  | inl r => ret r
  | inr e => raise e
  end.

(** [ET.fromstring(text)] *)
Definition ET_fromstring (text : string) : M ET.Element :=
  match xml_fromstring w text with
  | inl root => ret root
  | inr e => raise e
  end.

(** [Metar(code).string()] *)
Definition Metar_string (code : string) : M string :=
  emit (EvMetar code) ;;
  match metar_string w code with
  | inl decoded => ret decoded
  | inr e => raise e
  end.

Definition metar_url (icao : string) : string :=
  "https://aviationweather.gov/api/data/metar?ids=" ++ icao ++ "&format=raw".

Definition taf_url (icao : string) : string :=
  "https://aviationweather.gov/cgi-bin/data/dataserver.php?requestType=retrieve&dataSource=tafs&format=xml&stationString="
  ++ icao ++ "&hours=24".

Definition get_metar (icao : string) : M string :=
  if negb (is_valid_icao icao) then ret "Invalid ICAO code."
  else
    let url := metar_url icao in
    try_except
      (response <- requests_get url ;;
       raise_for_status response ;;
       if truthy (strip (resp_text response))
       then ret (strip (resp_text response))
       else ret "METAR data not available (empty response).")
      (fun e => isinstance e RequestException)
      (fun e =>
         logging_error ("Error fetching METAR: " ++ str_exn e) ;;
         ret "METAR data not available (network error).").

Definition decode_metar (metar : string) : M string :=
  if str_in "METAR data not available." metar
     || str_in "Invalid ICAO code." metar
  then ret metar
  else
    try_except
      (Metar_string metar)
      (fun e => isinstance e Exception_)
      (fun e =>
         logging_error ("Error decoding METAR: " ++ str_exn e) ;;
         ret "Error decoding METAR.").

Definition get_taf (icao : string) : M string :=
  if negb (is_valid_icao icao) then ret "Invalid ICAO code."
  else
    let url := taf_url icao in
    try_except
      (response <- requests_get url ;;
       raise_for_status response ;;
       if negb (truthy (strip (resp_text response)))
       then ret "TAF data not available (empty response)."
       else
         root <- ET_fromstring (resp_text response) ;;
         let taf_texts := map ET.text (ET.findall taf_text_path root) in
         match taf_texts with
         | [] => ret "TAF data not available."
         | _ => str_join (String LF "") taf_texts
         end)
      (fun e => isinstance e RequestException || isinstance e ParseError)
      (fun e =>
         logging_error ("Error fetching/parsing TAF: " ++ str_exn e) ;;
         ret "TAF data not available.").

(** The payload of the webhook call.  The three lookups are made in the
    order in which the dict display evaluates them first. *)
Definition slack_payload (icao m t d : string) : json :=
  JDict
    [("text",
      JStr ("*Weather Brief for " ++ str_upper w icao ++ "* :airplane: "
            ++ String LF (String LF "")
            ++ "*METAR* :bar_chart: " ++ String LF m ++ String LF (String LF "")
            ++ "*TAF* :cloud_with_rain: " ++ String LF t ++ String LF (String LF "")
            ++ "*Decoded METAR* :book: " ++ String LF d));
     ("attachments",
      JList
        [JDict
           [("color", JStr "#36a64f");
            ("title", JStr "Weather Information");
            ("pretext", JStr ("Weather Brief for *" ++ str_upper w icao ++ "*"));
            ("fields",
             JList
               [JDict [("title", JStr "METAR"); ("value", JStr m);
                       ("short", JBool false)];
                JDict [("title", JStr "TAF"); ("value", JStr t);
                       ("short", JBool false)];
                JDict [("title", JStr "Decoded METAR"); ("value", JStr d);
                       ("short", JBool false)]]);
            ("footer", JStr "Weather data provided by AviationWeather.gov");
            ("footer_icon",
             JStr "https://www.aviationweather.gov/sites/default/files/favicon.ico");
            ("thumb_url",
             JStr "https://upload.wikimedia.org/wikipedia/commons/thumb/6/67/Weather_icon_001.svg/120px-Weather_icon_001.svg.png")]])].

Definition send_to_slack (message : dict) (icao : string) : M unit :=
  hook <- read_webhook ;;
  match hook with
  | Some url =>
      if truthy url then
        m <- getitem message "metar" ;;
        t <- getitem message "taf" ;;
        d <- getitem message "decoded_metar" ;;
        let payload := slack_payload icao m t d in
        try_except
          (response <- requests_post url payload ;;
           raise_for_status response ;;
           logging_info "Data sent to Slack successfully.")
          (fun e => isinstance e RequestException)
          (fun e => logging_error ("Error sending data to Slack: " ++ str_exn e))
      else logging_error "Slack Webhook URL not found in environment variables."
  | None => logging_error "Slack Webhook URL not found in environment variables."
  end.

Definition get_weather_brief (icao : string) : M unit :=
  logging_info ("Fetching weather briefing for " ++ str_upper w icao ++ "...") ;;
  metar <- get_metar icao ;;
  taf <- get_taf icao ;;
  decoded_metar <- decode_metar metar ;;
  let message : dict :=
    [("metar", metar); ("taf", taf); ("decoded_metar", decoded_metar)] in
  print (String LF "*Weather Brief for " ++ str_upper w icao ++ "*" ++ String LF "") ;;
  print ("*METAR:*" ++ String LF metar) ;;
  print (String LF "*TAF:*" ++ String LF taf) ;;
  print (String LF "*Decoded METAR:*" ++ String LF decoded_metar) ;;
  send_to_slack message icao.

End Program.

(** A run from a fresh process: what it returns and what it emitted. *)
Definition initial (hook : option string) : State := mkState hook [].

Definition run {A} (m : M A) (hook : option string) : result A * list event :=
  let '(r, st) := m (initial hook) in (r, trace st).

(** ** Notions used to state the properties *)

(** The state after some more events, globals untouched. *)
Definition extend (st : State) (evs : list event) : State :=
  mkState (SLACK_WEBHOOK_URL st) (trace st ++ evs).

(** Two runs of [m] agree: the same result and the same events emitted,
    each on top of its own history. *)
Definition same_outcome {A} (m : M A) (st1 st2 : State) : Prop :=
  exists r evs, m st1 = (r, extend st1 evs) /\ m st2 = (r, extend st2 evs).

(** [m] reads nothing but the webhook global and only appends events. *)
Definition stateless {A} (m : M A) : Prop :=
  forall hook, exists r evs,
    forall tr, m (mkState hook tr) = (r, mkState hook (tr ++ evs)).

(** A failure that [get_taf] handles: the placeholder, and one error record
    after the request. *)
Definition taf_failure (icao : string) (st : State) (msg : string)
    : result string * State :=
  (Ok "TAF data not available.",
   extend st [EvGet (taf_url icao);
              EvLogError ("Error fetching/parsing TAF: " ++ msg)]).

(** The [except] clauses of the two fetchers and of the notifier. *)
Definition request_failure (e : exn) : bool := isinstance e RequestException.

Definition taf_failure_caught (e : exn) : bool :=
  isinstance e RequestException || isinstance e ParseError.


(** No request was recorded. *)
Definition is_request (ev : event) : bool :=
  match ev with EvGet _ | EvPost _ _ => true | _ => false end.

(** Four uppercase letters followed by one newline. *)
Definition four_uppercase_newline (s : string) : bool :=
  match s with
  | String a (String b (String c (String d (String e EmptyString)))) =>
      is_upper a && is_upper b && is_upper c && is_upper d && Ascii.eqb e LF
  | _ => false
  end.

(** Document order, following the words of the specification: walk the tree
    in pre-order and keep each [inner] element whose parent is an [outer]
    element.  [under] tells whether the parent of [e] is one. *)
Fixpoint doc_walk (outer inner : string) (under : bool) (e : ET.Element)
    : list ET.Element :=
  match e with
  | ET.Elem t _ cs =>
      (if under && String.eqb t inner then [e] else [])
      ++ flat_map (doc_walk outer inner (String.eqb t outer)) cs
  end.

(** The [text] children of the [TAF] elements below the root, in document
    order. *)
Definition doc_taf_texts (root : ET.Element) : list ET.Element :=
  flat_map (doc_walk "TAF" "text" false) (ET.children root).

(** No element tagged [t] in the subtree of [e]. *)
Fixpoint tag_free (t : string) (e : ET.Element) : bool :=
  match e with
  | ET.Elem t' _ cs => negb (String.eqb t' t) && forallb (tag_free t) cs
  end.

(** No element tagged [t] lies inside another one. *)
Fixpoint unnested (t : string) (e : ET.Element) : bool :=
  match e with
  | ET.Elem t' _ cs =>
      if String.eqb t' t then forallb (tag_free t) cs
      else forallb (unnested t) cs
  end.

(** ** Concrete worlds *)

(** [str.upper] on ASCII text. *)
Definition ascii_upper_char (c : ascii) : ascii :=
  if Re.in_range "a" "z" c then ascii_of_N (code c - 32) else c.

Fixpoint ascii_upper (s : string) : string :=
  match s with
  | EmptyString => EmptyString
  | String c r => String (ascii_upper_char c) (ascii_upper r)
  end.

(** A world in which every GET is answered by [get], [fromstring] parses
    [body] to [tree] and rejects everything else, the decoder library
    rejects every report and the webhook accepts every post. *)
Definition world_of (get : Response + exn)
    (body : string) (tree : ET.Element) : World :=
  {| http_get := fun _ => get;
     http_post := fun url _ => inl (mkResponse 200 "OK" url "ok");
     xml_fromstring := fun s =>
       if String.eqb s body then inl tree
       else inr (mkExn ParseError "syntax error: line 1, column 0");
     metar_string := fun s =>
       inr (mkExn ParserError ("Unparsed groups in body while processing '" ++ s ++ "'"));
     str_upper := ascii_upper |}.

Definition ok_response (body : string) : Response :=
  mkResponse 200 "OK" "" body.

(** A TAF element nested in another one. *)
Definition nested_body : string :=
  "<response><TAF><TAF><text>a</text></TAF><text>b</text></TAF></response>".
Definition nested_tree : ET.Element :=
  ET.Elem "response" None
    [ET.Elem "TAF" None
       [ET.Elem "TAF" None [ET.Elem "text" (Some "a") []];
        ET.Elem "text" (Some "b") []]].
Definition nested_world : World :=
  world_of (inl (ok_response nested_body)) nested_body nested_tree.

(** A [text] element without character data. *)
Definition empty_text_body : string := "<response><TAF><text/></TAF></response>".
Definition empty_text_tree : ET.Element :=
  ET.Elem "response" None [ET.Elem "TAF" None [ET.Elem "text" None []]].
Definition empty_text_world : World :=
  world_of (inl (ok_response empty_text_body)) empty_text_body empty_text_tree.

(** A well-formed answer without any TAF. *)
Definition no_taf_body : string := "<response><data/></response>".
Definition no_taf_tree : ET.Element :=
  ET.Elem "response" None [ET.Elem "data" None []].
Definition no_taf_world : World :=
  world_of (inl (ok_response no_taf_body)) no_taf_body no_taf_tree.

(** An answer that is not well-formed XML. *)
Definition malformed_world : World :=
  world_of (inl (ok_response "<response>")) no_taf_body no_taf_tree.

(** An answer with a blank body. *)
Definition blank_world : World :=
  world_of (inl (ok_response (String LF "  "))) no_taf_body no_taf_tree.

(** A usual answer: two forecasts. *)
Definition two_tafs_body : string :=
  "<response><data><TAF><text>TAF KJFK 1</text></TAF><TAF><text>TAF KJFK 2</text></TAF></data></response>".
Definition two_tafs_tree : ET.Element :=
  ET.Elem "response" None
    [ET.Elem "data" None
       [ET.Elem "TAF" None [ET.Elem "text" (Some "TAF KJFK 1") []];
        ET.Elem "TAF" None [ET.Elem "text" (Some "TAF KJFK 2") []]]].
Definition two_tafs_world : World :=
  world_of (inl (ok_response two_tafs_body)) two_tafs_body two_tafs_tree.

(** A 300 answer with a body: not an error for [raise_for_status]. *)
Definition multiple_choices_world : World :=
  world_of (inl (mkResponse 300 "Multiple Choices" "" "KJFK 211951Z"))
    no_taf_body no_taf_tree.

(** The METAR service answers with a report. *)
Definition report_world : World :=
  world_of (inl (ok_response ("KJFK 211951Z 18010KT" ++ String LF "")))
    no_taf_body no_taf_tree.

(** The transport fails. *)
Definition timeout_world : World :=
  world_of (inr (mkExn Timeout "Read timed out.")) no_taf_body no_taf_tree.

(** The placeholders of [get_metar]. *)
Definition metar_empty_placeholder : string :=
  "METAR data not available (empty response).".
Definition metar_network_placeholder : string :=
  "METAR data not available (network error).".
Definition invalid_icao_placeholder : string := "Invalid ICAO code.".

(** Four uppercase letters and a newline. *)
Definition KJFK_newline : string := "KJFK" ++ String LF "".

(** ** Further notions and worlds *)

(** How [send_to_slack] ends once it has built its payload: the POST, then
    the log record of a success or of a handled failure; an exception that
    is no [RequestException] leaves the function after the POST. *)
Definition slack_post (w : World) (url : string) (payload : json)
    : result unit * list event :=
  match http_post w url payload with
  | inl r =>
      (Ok tt,
       [EvPost url payload;
        if is_error_status r
        then EvLogError ("Error sending data to Slack: " ++ http_error_msg r)
        else EvLogInfo "Data sent to Slack successfully."])
  | inr e =>
      if request_failure e
      then (Ok tt,
            [EvPost url payload;
             EvLogError ("Error sending data to Slack: " ++ str_exn e)])
      else (Raise e, [EvPost url payload])
  end.

(** The answer to a request is a response or a [RequestException]. *)
Definition answered {A} (a : A + exn) : Prop :=
  match a with
  | inl _ => True
  | inr e => request_failure e = true
  end.

(** What [get_weather_brief] logs and prints around its three stages. *)
Definition brief_banner (w : World) (icao : string) : event :=
  EvLogInfo ("Fetching weather briefing for " ++ str_upper w icao ++ "...").

Definition brief_prints (w : World) (icao metar taf decoded : string)
    : list event :=
  [EvPrint (String LF "*Weather Brief for " ++ str_upper w icao ++ "*" ++ String LF "");
   EvPrint ("*METAR:*" ++ String LF metar);
   EvPrint (String LF "*TAF:*" ++ String LF taf);
   EvPrint (String LF "*Decoded METAR:*" ++ String LF decoded)].

(** The requests among some events. *)
Definition requests_of (evs : list event) : list event := filter is_request evs.

(** A document whose only TAF element is its root. *)
Definition root_taf_body : string := "<TAF><text>TAF KJFK 1</text></TAF>".
Definition root_taf_tree : ET.Element :=
  ET.Elem "TAF" None [ET.Elem "text" (Some "TAF KJFK 1") []].
Definition root_taf_world : World :=
  world_of (inl (ok_response root_taf_body)) root_taf_body root_taf_tree.

(** The TAF service answers 503. *)
Definition unavailable_world : World :=
  world_of (inl (mkResponse 503 "Service Unavailable" "u" "<html/>"))
    no_taf_body no_taf_tree.

Definition example_hook : string := "https://hooks.slack.com/services/T0/B0/x".

(** The service redirects to a host name that urllib3 refuses to parse:
    [requests] lets its [LocationParseError] through. *)
Definition bad_redirect : exn :=
  mkExn LocationParseError
    "Failed to parse: 'aaaaaaaaaaaaaaaaaaaaaaaaaaaaaaaaaaaaaaaaaaaaaaaaaaaaaaaaaaaaaaaaaaaaaa.example', label empty or too long".
Definition bad_redirect_world : World :=
  world_of (inr bad_redirect) no_taf_body no_taf_tree.


(** ** Sanity checks of the embedding on concrete inputs *)

Example is_valid_icao_KJFK : is_valid_icao "KJFK" = true.
Proof. reflexivity. Qed.

Example is_valid_icao_lower : is_valid_icao "kjfk" = false.
Proof. reflexivity. Qed.

Example is_valid_icao_short : is_valid_icao "KJF" = false.
Proof. reflexivity. Qed.

Example is_valid_icao_long : is_valid_icao "KJFKX" = false.
Proof. reflexivity. Qed.

Example is_valid_icao_digit : is_valid_icao "KJF1" = false.
Proof. reflexivity. Qed.

Example is_valid_icao_empty : is_valid_icao "" = false.
Proof. reflexivity. Qed.

Example strip_example : strip (String LF "  KJFK 211951Z  " ++ String LF "") = "KJFK 211951Z".
Proof. reflexivity. Qed.

Example str_of_int_404 : str_of_int 404 = "404".
Proof. reflexivity. Qed.

(** ** Facts about the string operations *)

Section StringFacts.

Lemma startswith_spec (p s : string) :
  startswith p s = true <-> exists post, s = p ++ post.
Proof.
  revert s. induction p as [|a p IH]; intros s; simpl.
  - split; [intros _; exists s; reflexivity | reflexivity].
  - destruct s as [|b s]; simpl.
    + split; [discriminate | intros [post H]; discriminate].
    + rewrite andb_true_iff, IH. split.
      * intros [Hab [post ->]]. apply Ascii.eqb_eq in Hab. subst b.
        exists post. reflexivity.
      * intros [post H]. injection H as -> ->. split.
        -- apply Ascii.eqb_refl.
        -- exists post. reflexivity.
Qed.

(** [needle in hay] holds exactly when [hay] splits around [needle]. *)
Lemma str_in_spec (needle hay : string) :
  str_in needle hay = true <-> exists pre post, hay = pre ++ needle ++ post.
Proof.
  induction hay as [|c hay IH].
  - simpl. rewrite orb_false_r, startswith_spec. split.
    + intros [post H]. exists "", post. exact H.
    + intros [pre [post H]]. destruct pre; simpl in H.
      * exists post. exact H.
      * discriminate.
  - cbn [str_in]. rewrite orb_true_iff, startswith_spec, IH. split.
    + intros [[post H] | [pre [post H]]].
      * exists "", post. exact H.
      * exists (String c pre), post. simpl. rewrite H. reflexivity.
    + intros [pre [post H]]. destruct pre as [|c' pre]; simpl in H.
      * left. exists post. exact H.
      * right. injection H as _ H. exists pre, post. exact H.
Qed.

Lemma lstrip_split (s : string) :
  exists l, s = l ++ lstrip s /\ all_space l = true.
Proof.
  induction s as [|c s [l [Hs Hl]]]; simpl.
  - exists "". split; reflexivity.
  - destruct (is_space c) eqn:Hc.
    + exists (String c l). simpl. rewrite Hc, Hl, <- Hs. split; reflexivity.
    + exists "". split; reflexivity.
Qed.

Lemma rstrip_split (s : string) :
  exists r, s = rstrip s ++ r /\ all_space r = true.
Proof.
  induction s as [|c s [r [Hs Hr]]]; simpl.
  - exists "". split; reflexivity.
  - destruct (rstrip s) as [|c' s'] eqn:Hrs.
    + simpl in Hs. subst r. destruct (is_space c) eqn:Hc.
      * exists (String c s). simpl. rewrite Hc, Hr. split; reflexivity.
      * exists s. split; [reflexivity | exact Hr].
    + exists r. simpl. simpl in Hs. rewrite <- Hs. split; [reflexivity | exact Hr].
Qed.

Lemma lstrip_head (s : string) : head_is_space (lstrip s) = false.
Proof.
  induction s as [|c s IH]; simpl; [reflexivity|].
  destruct (is_space c) eqn:Hc; [exact IH | simpl; exact Hc].
Qed.

Lemma rstrip_last (s : string) : last_is_space (rstrip s) = false.
Proof.
  induction s as [|c s IH]; simpl; [reflexivity|].
  destruct (rstrip s) as [|c' s'] eqn:Hrs.
  - destruct (is_space c) eqn:Hc; simpl; [reflexivity | exact Hc].
  - exact IH.
Qed.

Lemma rstrip_head (s : string) :
  head_is_space s = false -> head_is_space (rstrip s) = false.
Proof.
  destruct s as [|c s]; simpl; [reflexivity|]. intros Hc.
  destruct (rstrip s); [rewrite Hc|]; simpl; exact Hc.
Qed.

Lemma rstrip_empty (s : string) : rstrip s = "" <-> all_space s = true.
Proof.
  induction s as [|c s IH]; simpl.
  - split; reflexivity.
  - rewrite andb_true_iff, <- IH. destruct (rstrip s).
    + destruct (is_space c); split; try discriminate; try tauto.
      intros [H _]. discriminate.
    + split; [discriminate | intros [_ H]; discriminate].
Qed.

Lemma all_space_app (a b : string) :
  all_space (a ++ b) = all_space a && all_space b.
Proof.
  induction a as [|c a IH]; simpl; [reflexivity|].
  rewrite IH, andb_assoc. reflexivity.
Qed.

(** [strip] removes a whitespace prefix and a whitespace suffix, and what
    is left neither starts nor ends with whitespace. *)
Lemma strip_spec (s : string) :
  exists l r,
    s = l ++ strip s ++ r /\ all_space l = true /\ all_space r = true
    /\ head_is_space (strip s) = false /\ last_is_space (strip s) = false.
Proof.
  destruct (lstrip_split s) as [l [Hl Hls]].
  destruct (rstrip_split (lstrip s)) as [r [Hr Hrs]].
  exists l, r. unfold strip. repeat split; auto.
  - rewrite <- Hr. exact Hl.
  - apply rstrip_head, lstrip_head.
  - apply rstrip_last.
Qed.

(** The stripped text is empty exactly when the text is empty or
    whitespace only. *)
Lemma strip_blank (s : string) : truthy (strip s) = negb (all_space s).
Proof.
  destruct (lstrip_split s) as [l [Hl Hls]]. unfold strip.
  rewrite Hl at 2. rewrite all_space_app, Hls. simpl.
  destruct (rstrip (lstrip s)) eqn:E.
  - apply rstrip_empty in E. rewrite E. reflexivity.
  - simpl. destruct (all_space (lstrip s)) eqn:E'; [|reflexivity].
    apply rstrip_empty in E'. congruence.
Qed.

End StringFacts.

(** ** The validator *)

(** What the pattern accepts: four uppercase letters, alone or followed by
    one newline. *)
Lemma is_valid_icao_char (s : string) :
  is_valid_icao s = four_uppercase s || four_uppercase_newline s.
Proof.
  unfold is_valid_icao, Re.re_match, four_uppercase, four_uppercase_newline, is_upper.
  destruct s as [|a [|b [|c [|d [|e [|f s]]]]]]; cbn;
    repeat match goal with
           | |- context [Re.in_range ?lo ?hi ?x] => destruct (Re.in_range lo hi x); cbn
           end;
    try reflexivity.
  - unfold LF; cbn; destruct (Ascii.eqb e _); reflexivity.
Qed.

Lemma four_uppercase_valid (s : string) :
  four_uppercase s = true -> is_valid_icao s = true.
Proof. intros H. rewrite is_valid_icao_char, H. reflexivity. Qed.

(** C2.  [is_valid_icao] accepts a string that is not four uppercase
    letters: four uppercase letters followed by a newline.  The claim that
    it is true exactly on the strings of four uppercase letters, with
    trailing newlines rejected, fails there. *)
Theorem is_valid_icao_accepts_trailing_newline :
  is_valid_icao KJFK_newline = true /\ four_uppercase KJFK_newline = false
  /\ String.length KJFK_newline = 5.
Proof. repeat split. Qed.

(** One step of symbolic execution that leaves the class tests, the tree
    search and the join folded. *)
Ltac run_step :=
  cbn -[isinstance ET.findall first_none somes join strip slack_payload].

(** ** The fetchers on rejected input *)

(** C4.  For every string the validator rejects, [get_metar] and [get_taf]
    return the placeholder and leave the state as it was: no request, no
    log record. *)
Theorem invalid_icao_short_circuits (w : World) (icao : string) (st : State) :
  is_valid_icao icao = false ->
  get_metar w icao st = (Ok invalid_icao_placeholder, st)
  /\ get_taf w icao st = (Ok invalid_icao_placeholder, st).
Proof.
  intros H. unfold get_metar, get_taf. rewrite H. split; reflexivity.
Qed.

Lemma invalid_icao_short_circuits_witness :
  is_valid_icao "kjfk" = false
  /\ get_metar report_world "kjfk" (initial None) = (Ok invalid_icao_placeholder, initial None)
  /\ get_taf report_world "kjfk" (initial None) = (Ok invalid_icao_placeholder, initial None).
Proof.
  split; [reflexivity|].
  apply (invalid_icao_short_circuits report_world "kjfk" (initial None)).
  reflexivity.
Defined.

(** ** The METAR fetcher *)

(** C5, as the code has it.  For every accepted ICAO code [get_metar]
    issues one GET.  It returns the network-error placeholder when the
    request raises a [RequestException] or the status is 4xx or 5xx, the
    empty-response placeholder when the body is empty or whitespace only,
    and the stripped body otherwise (whatever the status, 3xx included).
    It raises in one case only: an exception of the request that is no
    [RequestException] is not caught and reaches the caller. *)
Theorem get_metar_outcomes (w : World) (icao : string) (st : State) :
  is_valid_icao icao = true ->
  exists logged,
    get_metar w icao st =
      (match http_get w (metar_url icao) with
       | inr e =>
           if request_failure e then Ok metar_network_placeholder else Raise e
       | inl r =>
           Ok (if is_error_status r then metar_network_placeholder
               else if all_space (resp_text r) then metar_empty_placeholder
               else strip (resp_text r))
       end,
       extend st (EvGet (metar_url icao) :: map EvLogError logged)).
Proof.
  intros H. unfold get_metar. rewrite H. cbn [negb].
  unfold try_except, bind, requests_get, emit, raise_for_status, logging_error,
    emit, extend, request_failure.
  destruct (http_get w (metar_url icao)) as [r | e]; run_step.
  - destruct (is_error_status r); run_step.
    + eexists [_]. cbn. rewrite <- app_assoc. reflexivity.
    + rewrite strip_blank. exists [].
      destruct (all_space (resp_text r)); reflexivity.
  - destruct (isinstance e RequestException) eqn:E; run_step.
    + eexists [_]. cbn. rewrite <- app_assoc. reflexivity.
    + exists []. reflexivity.
Qed.

Lemma get_metar_outcomes_witness :
  is_valid_icao "KJFK" = true
  /\ exists logged,
      get_metar report_world "KJFK" (initial None) =
        (Ok "KJFK 211951Z 18010KT",
         extend (initial None) (EvGet (metar_url "KJFK") :: map EvLogError logged)).
Proof.
  split; [reflexivity|].
  apply (get_metar_outcomes report_world "KJFK" (initial None)). reflexivity.
Defined.

(** C5, as stated, fails twice.  A 300 answer is a non-2xx status, and its
    body is returned instead of the network-error placeholder.  And a
    redirect to a host name that cannot be parsed makes the request raise
    an exception that is no [RequestException]: it leaves [get_metar]. *)
Lemma get_metar_non_2xx_returns_body :
  is_valid_icao "KJFK" = true
  /\ (exists r, http_get multiple_choices_world (metar_url "KJFK") = inl r
                /\ status_code r = 300%Z)
  /\ fst (run (get_metar multiple_choices_world "KJFK") None) = Ok "KJFK 211951Z"
  /\ fst (run (get_metar multiple_choices_world "KJFK") None)
     <> Ok metar_network_placeholder
  /\ run (get_metar bad_redirect_world "KJFK") None
     = (Raise bad_redirect, [EvGet (metar_url "KJFK")]).
Proof.
  split; [reflexivity|]. split; [eexists; split; reflexivity|].
  split; [reflexivity|]. split; [discriminate | reflexivity].
Qed.

(** ** The decoder *)

(** What the decoder does when its guard does not fire: one call of the
    decoder library, and its exception, if any, logged and replaced. *)
Lemma decode_metar_unguarded (w : World) (metar : string) (st : State) :
  str_in "METAR data not available." metar = false ->
  str_in "Invalid ICAO code." metar = false ->
  decode_metar w metar st =
    match metar_string w metar with
    | inl decoded => (Ok decoded, extend st [EvMetar metar])
    | inr e =>
        (Ok "Error decoding METAR.",
         extend st [EvMetar metar;
                    EvLogError ("Error decoding METAR: " ++ str_exn e)])
    end.
Proof.
  intros H1 H2. unfold decode_metar. rewrite H1, H2. cbn [orb].
  unfold try_except, Metar_string, bind, emit, logging_error, emit, extend.
  destruct (metar_string w metar) as [d | e]; cbn; [reflexivity|].
  rewrite <- app_assoc. reflexivity.
Qed.

(** C1.  The two placeholders of the METAR fetcher do not contain the text
    the guard looks for, so they are handed to the decoder library; the
    decoder returns what the library makes of them, or the decoding-error
    placeholder when the library raises, and not the placeholder itself.
    Only ["Invalid ICAO code."] is passed through. *)
Theorem decode_metar_fetch_placeholders (w : World) (hook : option string) :
  fst (run (decode_metar w metar_empty_placeholder) hook) =
    Ok match metar_string w metar_empty_placeholder with
       | inl decoded => decoded
       | inr _ => "Error decoding METAR."
       end
  /\ fst (run (decode_metar w metar_network_placeholder) hook) =
    Ok match metar_string w metar_network_placeholder with
       | inl decoded => decoded
       | inr _ => "Error decoding METAR."
       end
  /\ run (decode_metar report_world metar_empty_placeholder) hook =
     (Ok "Error decoding METAR.",
      [EvMetar metar_empty_placeholder;
       EvLogError
         "Error decoding METAR: Unparsed groups in body while processing 'METAR data not available (empty response).'"])
  /\ run (decode_metar w invalid_icao_placeholder) hook =
     (Ok invalid_icao_placeholder, []).
Proof.
  unfold run. repeat split.
  - rewrite decode_metar_unguarded by reflexivity.
    destruct (metar_string w metar_empty_placeholder); reflexivity.
  - rewrite decode_metar_unguarded by reflexivity.
    destruct (metar_string w metar_network_placeholder); reflexivity.
Qed.

(** C10.  The guard of the decoder is a substring test: every input in
    which ["METAR data not available."] or ["Invalid ICAO code."] occurs
    anywhere is returned as it is, and the state is left as it was, so the
    decoder library is not called. *)
Theorem decode_metar_substring_passthrough
    (w : World) (metar : string) (st : State) :
  (exists pre post, metar = pre ++ "METAR data not available." ++ post)
  \/ (exists pre post, metar = pre ++ "Invalid ICAO code." ++ post) ->
  decode_metar w metar st = (Ok metar, st).
Proof.
  intros H. unfold decode_metar.
  assert (E : str_in "METAR data not available." metar
              || str_in "Invalid ICAO code." metar = true).
  { apply orb_true_iff. destruct H as [H | H]; [left | right];
      apply str_in_spec; exact H. }
  rewrite E. reflexivity.
Qed.

Lemma decode_metar_substring_passthrough_witness :
  decode_metar report_world "KJFK 211951Z RMK METAR data not available. NEXT 2200Z"
    (initial None)
  = (Ok "KJFK 211951Z RMK METAR data not available. NEXT 2200Z", initial None).
Proof.
  apply (decode_metar_substring_passthrough report_world
           "KJFK 211951Z RMK METAR data not available. NEXT 2200Z" (initial None)).
  left. exists "KJFK 211951Z RMK ", " NEXT 2200Z". reflexivity.
Defined.

(** ** The notifier *)

(** C7.  With the webhook global unset, [send_to_slack] returns normally,
    and all it adds to the state is one error record: no POST. *)
Theorem send_to_slack_without_webhook
    (w : World) (message : dict) (icao : string) (st : State) :
  SLACK_WEBHOOK_URL st = None ->
  send_to_slack w message icao st =
    (Ok tt,
     extend st [EvLogError "Slack Webhook URL not found in environment variables."])
  /\ filter is_request
       [EvLogError "Slack Webhook URL not found in environment variables."] = [].
Proof.
  intros H. split; [|reflexivity].
  unfold send_to_slack, bind, read_webhook. rewrite H. reflexivity.
Qed.

Lemma send_to_slack_without_webhook_witness :
  send_to_slack report_world [("metar", "m"); ("taf", "t"); ("decoded_metar", "d")]
    "KJFK" (initial None)
  = (Ok tt,
     extend (initial None)
       [EvLogError "Slack Webhook URL not found in environment variables."])
  /\ filter is_request
       [EvLogError "Slack Webhook URL not found in environment variables."] = [].
Proof.
  apply (send_to_slack_without_webhook report_world
           [("metar", "m"); ("taf", "t"); ("decoded_metar", "d")] "KJFK"
           (initial None)).
  reflexivity.
Defined.

(** ** [findall] and document order *)

Section FindallOrder.

Variables outer inner : string.

(** Induction on an element with the hypothesis for all its children. *)
Lemma Element_forall_ind (P : ET.Element -> Prop) :
  (forall t x cs, Forall P cs -> P (ET.Elem t x cs)) -> forall e, P e.
Proof.
  intros step. fix IH 1. intros [t x cs]. apply step.
  induction cs as [|c cs IHcs]; constructor; [apply IH | exact IHcs].
Qed.

Lemma flat_map_pointwise {A B} (f g : A -> list B) (l : list A) :
  Forall (fun a => f a = g a) l -> flat_map f l = flat_map g l.
Proof.
  induction 1 as [|a l Ha _ IH]; simpl; [reflexivity|]. rewrite Ha, IH.
  reflexivity.
Qed.

Lemma flat_map_all_nil {A B} (f : A -> list B) (l : list A) :
  Forall (fun a => f a = []) l -> flat_map f l = [].
Proof.
  induction 1 as [|a l Ha _ IH]; simpl; [reflexivity|]. rewrite Ha, IH.
  reflexivity.
Qed.

Lemma flat_map_singletons {A} (p : A -> bool) (l : list A) :
  flat_map (fun a => if p a then [a] else []) l = filter p l.
Proof.
  induction l as [|a l IH]; simpl; [reflexivity|]. rewrite IH.
  destruct (p a); reflexivity.
Qed.

Lemma flat_map_nested {A B C} (f : A -> list B) (g : B -> list C) (l : list A) :
  flat_map g (flat_map f l) = flat_map (fun a => flat_map g (f a)) l.
Proof.
  induction l as [|a l IH]; simpl; [reflexivity|].
  rewrite flat_map_app, IH. reflexivity.
Qed.

(** Under the premise [Q] on every element of [l], pointwise facts that
    depend on [Q] hold on all of [l]. *)
Lemma Forall_under_forallb {A} (q : A -> bool) (P : A -> Prop) (l : list A) :
  Forall (fun a => q a = true -> P a) l -> forallb q l = true -> Forall P l.
Proof.
  induction 1 as [|a l Ha _ IH]; simpl; intros Hq; constructor.
  - apply Ha. apply andb_true_iff in Hq. tauto.
  - apply IH. apply andb_true_iff in Hq. tauto.
Qed.

(** A subtree without [outer] elements contributes nothing, except that
    its root may itself be an [inner] child of an [outer] parent. *)
Lemma tag_free_walk (e : ET.Element) :
  tag_free outer e = true ->
  ET.iter outer e = []
  /\ doc_walk outer inner false e = []
  /\ doc_walk outer inner true e = if ET.has_tag inner e then [e] else [].
Proof.
  induction e as [t x cs IH] using Element_forall_ind.
  cbn [tag_free]. intros H. apply andb_true_iff in H as [Ht Hcs].
  apply negb_true_iff in Ht.
  pose proof (Forall_under_forallb _ _ _ IH Hcs) as Hall.
  assert (Hwalk : flat_map (doc_walk outer inner false) cs = []).
  { apply flat_map_all_nil. eapply Forall_impl; [|exact Hall].
    intros c Hc. apply Hc. }
  cbn [ET.iter doc_walk]. rewrite Ht, Hwalk. cbn [andb app].
  repeat split.
  - apply flat_map_all_nil. eapply Forall_impl; [|exact Hall].
    intros c Hc. apply Hc.
  - rewrite app_nil_r. reflexivity.
Qed.

(** When [outer] elements do not nest, the two selectors [//outer] and
    [/inner] visit the [inner] children in document order. *)
Lemma unnested_walk (e : ET.Element) :
  unnested outer e = true ->
  flat_map (ET.children_tagged inner) (ET.iter outer e) = doc_walk outer inner false e.
Proof.
  induction e as [t x cs IH] using Element_forall_ind.
  cbn [unnested ET.iter doc_walk andb app].
  destruct (String.eqb t outer) eqn:Ht; intros H; cbn [app].
  - assert (Hfree : Forall (fun c => tag_free outer c = true) cs)
      by (apply Forall_forall; exact (proj1 (forallb_forall _ _) H)).
    rewrite (flat_map_all_nil (ET.iter outer) cs).
    2:{ eapply Forall_impl; [|exact Hfree]. intros c Hc.
        apply (tag_free_walk c Hc). }
    rewrite (flat_map_pointwise (doc_walk outer inner true)
               (fun c => if ET.has_tag inner c then [c] else []) cs).
    2:{ eapply Forall_impl; [|exact Hfree]. intros c Hc.
        apply (tag_free_walk c Hc). }
    rewrite flat_map_singletons. cbn. rewrite app_nil_r. reflexivity.
  - rewrite flat_map_nested. apply flat_map_pointwise.
    exact (Forall_under_forallb _ _ _ IH H).
Qed.

End FindallOrder.

(** [findall(".//TAF/text")] is the document order of the matching elements
    as long as no TAF element lies inside another one. *)
Lemma findall_taf_text_doc_order (root : ET.Element) :
  forallb (unnested "TAF") (ET.children root) = true ->
  ET.findall taf_text_path root = doc_taf_texts root.
Proof.
  intros H. unfold ET.findall, taf_text_path, doc_taf_texts. cbn [fold_left ET.select].
  cbn [flat_map]. rewrite app_nil_r, flat_map_nested.
  apply flat_map_pointwise.
  apply (Forall_under_forallb (unnested "TAF")); [|exact H].
  apply Forall_forall. intros c _ Hc.
  apply (unnested_walk "TAF" "text" c Hc).
Qed.

Lemma first_none_somes (texts : list string) (i : nat) :
  first_none i (map Some texts) = None /\ somes (map Some texts) = texts.
Proof.
  revert i. induction texts as [|t texts IH]; intros i; cbn; [split; reflexivity|].
  destruct (IH (S i)) as [H1 H2]. rewrite H1, H2. split; reflexivity.
Qed.

(** ** The TAF fetcher *)

Section GetTaf.

Variable w : World.
Variable icao : string.
Variable st : State.
Hypothesis valid : is_valid_icao icao = true.

(** What the request raises is handled when the [except] clause names its
    class, and leaves [get_taf] otherwise. *)
Lemma get_taf_transport_failure (e : exn) :
  http_get w (taf_url icao) = inr e ->
  get_taf w icao st =
    if taf_failure_caught e then taf_failure icao st (str_exn e)
    else (Raise e, extend st [EvGet (taf_url icao)]).
Proof.
  intros Hget. unfold get_taf, taf_failure, taf_failure_caught. rewrite valid.
  cbn [negb].
  unfold try_except, bind, requests_get, emit, extend. rewrite Hget. run_step.
  destruct (isinstance e RequestException || isinstance e ParseError);
    run_step; [rewrite <- app_assoc|]; reflexivity.
Qed.

Lemma get_taf_error_status (r : Response) :
  http_get w (taf_url icao) = inl r ->
  is_error_status r = true ->
  get_taf w icao st = taf_failure icao st (http_error_msg r).
Proof.
  intros Hget Hstatus. unfold get_taf, taf_failure. rewrite valid. cbn [negb].
  unfold try_except, bind, requests_get, raise_for_status, emit, extend.
  rewrite Hget. cbn. rewrite Hstatus. cbn. rewrite <- app_assoc. reflexivity.
Qed.

Lemma get_taf_blank (r : Response) :
  http_get w (taf_url icao) = inl r ->
  is_error_status r = false ->
  all_space (resp_text r) = true ->
  get_taf w icao st = (Ok "TAF data not available (empty response).", extend st [EvGet (taf_url icao)]).
Proof.
  intros Hget Hstatus Hblank. unfold get_taf. rewrite valid. cbn [negb].
  unfold try_except, bind, requests_get, raise_for_status, emit.
  rewrite Hget. cbn. rewrite Hstatus. cbn. rewrite strip_blank, Hblank.
  reflexivity.
Qed.

(** The same for what the parser raises. *)
Lemma get_taf_parser_raises (r : Response) (e : exn) :
  http_get w (taf_url icao) = inl r ->
  is_error_status r = false ->
  all_space (resp_text r) = false ->
  xml_fromstring w (resp_text r) = inr e ->
  get_taf w icao st =
    if taf_failure_caught e then taf_failure icao st (str_exn e)
    else (Raise e, extend st [EvGet (taf_url icao)]).
Proof.
  intros Hget Hstatus Hblank Hxml.
  unfold get_taf, taf_failure, taf_failure_caught. rewrite valid. cbn [negb].
  unfold try_except, bind, requests_get, raise_for_status, ET_fromstring, emit,
    extend.
  rewrite Hget. run_step. rewrite Hstatus. run_step.
  rewrite strip_blank, Hblank. run_step. rewrite Hxml. run_step.
  destruct (isinstance e RequestException || isinstance e ParseError);
    run_step; [rewrite <- app_assoc|]; reflexivity.
Qed.

Lemma get_taf_malformed (r : Response) (msg : string) :
  http_get w (taf_url icao) = inl r ->
  is_error_status r = false ->
  all_space (resp_text r) = false ->
  xml_fromstring w (resp_text r) = inr (mkExn ParseError msg) ->
  get_taf w icao st = taf_failure icao st msg.
Proof.
  intros Hget Hstatus Hblank Hxml.
  rewrite (get_taf_parser_raises r _ Hget Hstatus Hblank Hxml). reflexivity.
Qed.

(** After a successful parse the outcome is that of the join, and no
    handler of [get_taf] catches what the join raises. *)
Lemma get_taf_parsed (r : Response) (root : ET.Element) :
  http_get w (taf_url icao) = inl r ->
  is_error_status r = false ->
  all_space (resp_text r) = false ->
  xml_fromstring w (resp_text r) = inl root ->
  get_taf w icao st =
    match map ET.text (ET.findall taf_text_path root) with
    | [] => (Ok "TAF data not available.", extend st [EvGet (taf_url icao)])
    | texts =>
        match first_none 0 texts with
        | Some i => (Raise (join_type_error i), extend st [EvGet (taf_url icao)])
        | None => (Ok (join (String LF "") (somes texts)), extend st [EvGet (taf_url icao)])
        end
    end.
Proof.
  intros Hget Hstatus Hblank Hxml. unfold get_taf. rewrite valid. cbn [negb].
  unfold try_except, bind, requests_get, raise_for_status, ET_fromstring, emit.
  rewrite Hget. run_step. rewrite Hstatus. run_step.
  rewrite strip_blank, Hblank. run_step. rewrite Hxml. run_step.
  destruct (map ET.text (ET.findall taf_text_path root)) as [|t texts];
    [reflexivity|].
  unfold str_join. destruct (first_none 0 (t :: texts)); reflexivity.
Qed.

End GetTaf.

(** C3, as the code has it.  An empty body, a parse failure and a
    well-formed answer without matching nodes each give a placeholder; the
    one for the empty body differs from the other two, which are the same
    string. *)
Theorem get_taf_failure_placeholders
    (w1 w2 w3 : World) (icao : string) (st : State)
    (r1 r2 r3 : Response) (msg : string) (root : ET.Element) :
  is_valid_icao icao = true ->
  http_get w1 (taf_url icao) = inl r1 -> is_error_status r1 = false ->
  all_space (resp_text r1) = true ->
  http_get w2 (taf_url icao) = inl r2 -> is_error_status r2 = false ->
  all_space (resp_text r2) = false ->
  xml_fromstring w2 (resp_text r2) = inr (mkExn ParseError msg) ->
  http_get w3 (taf_url icao) = inl r3 -> is_error_status r3 = false ->
  all_space (resp_text r3) = false ->
  xml_fromstring w3 (resp_text r3) = inl root ->
  ET.findall taf_text_path root = [] ->
  fst (get_taf w1 icao st) = Ok "TAF data not available (empty response)."
  /\ fst (get_taf w2 icao st) = Ok "TAF data not available."
  /\ fst (get_taf w3 icao st) = Ok "TAF data not available."
  /\ "TAF data not available (empty response)." <> "TAF data not available.".
Proof.
  intros V G1 S1 B1 G2 S2 B2 X2 G3 S3 B3 X3 F3. repeat split.
  - rewrite (get_taf_blank w1 icao st V r1 G1 S1 B1). reflexivity.
  - rewrite (get_taf_malformed w2 icao st V r2 msg G2 S2 B2 X2). reflexivity.
  - rewrite (get_taf_parsed w3 icao st V r3 root G3 S3 B3 X3), F3. reflexivity.
  - discriminate.
Qed.

Lemma get_taf_failure_placeholders_witness :
  fst (get_taf blank_world "KJFK" (initial None))
    = Ok "TAF data not available (empty response)."
  /\ fst (get_taf malformed_world "KJFK" (initial None))
    = Ok "TAF data not available."
  /\ fst (get_taf no_taf_world "KJFK" (initial None))
    = Ok "TAF data not available."
  /\ "TAF data not available (empty response)." <> "TAF data not available.".
Proof.
  apply (get_taf_failure_placeholders blank_world malformed_world no_taf_world
           "KJFK" (initial None)
           (ok_response (String LF "  ")) (ok_response "<response>")
           (ok_response no_taf_body) "syntax error: line 1, column 0" no_taf_tree);
    reflexivity.
Defined.

(** C3, as stated, fails: the placeholders of a parse failure and of an
    answer without matching nodes are one and the same string. *)
Lemma get_taf_parse_failure_and_no_match_coincide :
  xml_fromstring malformed_world "<response>"
  = inr (mkExn ParseError "syntax error: line 1, column 0")
  /\ ET.findall taf_text_path no_taf_tree = []
  /\ fst (run (get_taf malformed_world "KJFK") None) = Ok "TAF data not available."
  /\ fst (run (get_taf no_taf_world "KJFK") None) = Ok "TAF data not available."
  /\ ~ (fst (run (get_taf malformed_world "KJFK") None)
        <> fst (run (get_taf no_taf_world "KJFK") None)).
Proof.
  repeat split. intros H. apply H. reflexivity.
Qed.

(** C6, as the code has it.  For an accepted ICAO code and an answer that is
    no 4xx or 5xx, parses, has no TAF element inside another one and in
    which every matching element carries text, [get_taf] returns the texts
    of the matching elements in document order, joined with newlines. *)
Theorem get_taf_joins_texts
    (w : World) (icao : string) (st : State)
    (r : Response) (root : ET.Element) (texts : list string) :
  is_valid_icao icao = true ->
  http_get w (taf_url icao) = inl r ->
  is_error_status r = false ->
  all_space (resp_text r) = false ->
  xml_fromstring w (resp_text r) = inl root ->
  forallb (unnested "TAF") (ET.children root) = true ->
  map ET.text (doc_taf_texts root) = map Some texts ->
  texts <> [] ->
  get_taf w icao st =
    (Ok (join (String LF "") texts), extend st [EvGet (taf_url icao)]).
Proof.
  intros V G S B X N T NE.
  rewrite (get_taf_parsed w icao st V r root G S B X).
  rewrite (findall_taf_text_doc_order root N), T.
  destruct texts as [|t texts]; [contradiction|].
  destruct (first_none_somes (t :: texts) 0) as [H1 H2].
  cbn [map] in *. rewrite H1, H2. reflexivity.
Qed.

Lemma get_taf_joins_texts_witness :
  get_taf two_tafs_world "KJFK" (initial None) =
    (Ok (join (String LF "") ["TAF KJFK 1"; "TAF KJFK 2"]),
     extend (initial None) [EvGet (taf_url "KJFK")]).
Proof.
  apply (get_taf_joins_texts two_tafs_world "KJFK" (initial None)
           (ok_response two_tafs_body) two_tafs_tree
           ["TAF KJFK 1"; "TAF KJFK 2"]);
    try reflexivity.
  discriminate.
Defined.

(** C6, as stated, fails: with a TAF element inside another one the texts
    come out of document order. *)
Lemma get_taf_nested_out_of_document_order :
  is_valid_icao "KJFK" = true
  /\ xml_fromstring nested_world nested_body = inl nested_tree
  /\ map ET.text (doc_taf_texts nested_tree) = [Some "a"; Some "b"]
  /\ fst (run (get_taf nested_world "KJFK") None)
     = Ok (join (String LF "") ["b"; "a"])
  /\ fst (run (get_taf nested_world "KJFK") None)
     <> Ok (join (String LF "") ["a"; "b"]).
Proof.
  repeat split. discriminate.
Qed.

(** ** The whole run *)

(** C8.  A [text] element without character data makes the join in
    [get_taf] raise [TypeError], which no handler catches: the exception
    leaves [get_weather_brief], after the two requests and before anything
    is printed or posted. *)
Theorem get_weather_brief_raises_on_empty_text :
  is_valid_icao "KJFK" = true
  /\ xml_fromstring empty_text_world empty_text_body = inl empty_text_tree
  /\ run (get_weather_brief empty_text_world "KJFK") None =
     (Raise (mkExn TypeError "sequence item 0: expected str instance, NoneType found"),
      [EvLogInfo "Fetching weather briefing for KJFK...";
       EvGet (metar_url "KJFK");
       EvGet (taf_url "KJFK")]).
Proof. repeat split. Qed.

(** ** Determinism and absence of retained state *)

Section Stateless.

Context {A B : Type}.

Lemma stateless_ret (a : A) : stateless (ret a).
Proof. intros hook. exists (Ok a), []. intros tr. rewrite app_nil_r. reflexivity. Qed.

Lemma stateless_raise (e : exn) : stateless (@raise A e).
Proof. intros hook. exists (Raise e), []. intros tr. rewrite app_nil_r. reflexivity. Qed.

Lemma stateless_bind (m : M A) (k : A -> M B) :
  stateless m -> (forall a, stateless (k a)) -> stateless (bind m k).
Proof.
  intros Hm Hk hook. destruct (Hm hook) as [r [evs Hr]]. destruct r as [a | e].
  - destruct (Hk a hook) as [r' [evs' Hr']]. exists r', (evs ++ evs')%list.
    intros tr. unfold bind. rewrite Hr, Hr', app_assoc. reflexivity.
  - exists (Raise e), evs. intros tr. unfold bind. rewrite Hr. reflexivity.
Qed.

Lemma stateless_try_except (body : M A) (catches : exn -> bool)
    (handler : exn -> M A) :
  stateless body -> (forall e, stateless (handler e)) ->
  stateless (try_except body catches handler).
Proof.
  intros Hb Hh hook. destruct (Hb hook) as [r [evs Hr]]. destruct r as [a | e].
  - exists (Ok a), evs. intros tr. unfold try_except. rewrite Hr. reflexivity.
  - destruct (catches e) eqn:Hc.
    + destruct (Hh e hook) as [r' [evs' Hr']]. exists r', (evs ++ evs')%list.
      intros tr. unfold try_except. rewrite Hr, Hc, Hr', app_assoc. reflexivity.
    + exists (Raise e), evs. intros tr. unfold try_except. rewrite Hr, Hc.
      reflexivity.
Qed.

End Stateless.

Lemma stateless_emit (ev : event) : stateless (emit ev).
Proof. intros hook. exists (Ok tt), [ev]. intros tr. reflexivity. Qed.

Lemma stateless_read_webhook : stateless read_webhook.
Proof.
  intros hook. exists (Ok hook), []. intros tr. rewrite app_nil_r. reflexivity.
Qed.

(** Programs built from the primitives are stateless, one constructor at a
    time; branches on values are split. *)
Ltac stateless_steps :=
  repeat first
    [ apply stateless_ret | apply stateless_raise | apply stateless_emit
    | apply stateless_read_webhook | apply stateless_bind
    | apply stateless_try_except
    | match goal with
      | |- forall _, _ => intro
      | |- stateless (if ?b then _ else _) => destruct b
      | |- stateless (match ?x with _ => _ end) => destruct x
      end ].

Lemma stateless_get_metar (w : World) (icao : string) :
  stateless (get_metar w icao).
Proof.
  unfold get_metar, requests_get, raise_for_status, logging_error.
  stateless_steps.
Qed.

Lemma stateless_get_taf (w : World) (icao : string) :
  stateless (get_taf w icao).
Proof.
  unfold get_taf, requests_get, raise_for_status, ET_fromstring, str_join,
    logging_error.
  stateless_steps.
Qed.

Lemma stateless_decode_metar (w : World) (metar : string) :
  stateless (decode_metar w metar).
Proof.
  unfold decode_metar, Metar_string, logging_error. stateless_steps.
Qed.

Lemma stateless_send_to_slack (w : World) (message : dict) (icao : string) :
  stateless (send_to_slack w message icao).
Proof.
  unfold send_to_slack, getitem, requests_post, raise_for_status, logging_error,
    logging_info.
  stateless_steps.
Qed.

Lemma stateless_get_weather_brief (w : World) (icao : string) :
  stateless (get_weather_brief w icao).
Proof.
  unfold get_weather_brief, logging_info, print.
  repeat first
    [ apply stateless_get_metar | apply stateless_get_taf
    | apply stateless_decode_metar | apply stateless_send_to_slack
    | apply stateless_emit | apply stateless_bind
    | match goal with |- forall _, _ => intro end ].
Qed.

Lemma stateless_same_outcome {A} (m : M A) (st1 st2 : State) :
  stateless m ->
  SLACK_WEBHOOK_URL st1 = SLACK_WEBHOOK_URL st2 ->
  same_outcome m st1 st2.
Proof.
  intros Hm Hhook. destruct st1 as [h tr1], st2 as [h2 tr2]. cbn in Hhook.
  subst h2. destruct (Hm h) as [r [evs Hr]]. exists r, evs.
  split; apply Hr.
Qed.

(** A second call right after the first returns what the first returned and
    emits the same events again. *)
Lemma stateless_rerun {A} (m : M A) (st : State) :
  stateless m -> same_outcome m st (snd (m st)).
Proof.
  intros Hm. apply stateless_same_outcome; [exact Hm|].
  destruct st as [h tr]. destruct (Hm h) as [r [evs Hr]]. rewrite Hr.
  reflexivity.
Qed.









(** * Further properties of the program *)

(** ** The validator, exactly *)

Lemma four_uppercase_shape (s : string) :
  four_uppercase s = true <->
  exists a b c d,
    (is_upper a = true /\ is_upper b = true
     /\ is_upper c = true /\ is_upper d = true)
    /\ s = String a (String b (String c (String d ""))).
Proof.
  split.
  - destruct s as [|a [|b [|c [|d [|e s]]]]]; try discriminate.
    cbn [four_uppercase]. intros H.
    apply andb_true_iff in H as [H Hd]. apply andb_true_iff in H as [H Hc].
    apply andb_true_iff in H as [Ha Hb].
    exists a, b, c, d. repeat split; assumption.
  - intros (a & b & c & d & (Ha & Hb & Hc & Hd) & ->). cbn.
    rewrite Ha, Hb, Hc, Hd. reflexivity.
Qed.

Lemma four_uppercase_newline_shape (s : string) :
  four_uppercase_newline s = true <->
  exists a b c d,
    (is_upper a = true /\ is_upper b = true
     /\ is_upper c = true /\ is_upper d = true)
    /\ s = String a (String b (String c (String d (String LF "")))).
Proof.
  split.
  - destruct s as [|a [|b [|c [|d [|e [|f s]]]]]]; try discriminate.
    cbn [four_uppercase_newline]. intros H.
    apply andb_true_iff in H as [H He]. apply andb_true_iff in H as [H Hd].
    apply andb_true_iff in H as [H Hc]. apply andb_true_iff in H as [Ha Hb].
    apply Ascii.eqb_eq in He. subst e.
    exists a, b, c, d. repeat split; assumption.
  - intros (a & b & c & d & (Ha & Hb & Hc & Hd) & ->). cbn.
    rewrite Ha, Hb, Hc, Hd. reflexivity.
Qed.

(** X1.  [is_valid_icao] accepts exactly the strings made of four letters
    of A..Z, and those followed by a single line feed; nothing else. *)
Theorem is_valid_icao_exact (s : string) :
  is_valid_icao s = true <->
  exists a b c d,
    (is_upper a = true /\ is_upper b = true
     /\ is_upper c = true /\ is_upper d = true)
    /\ (s = String a (String b (String c (String d "")))
        \/ s = String a (String b (String c (String d (String LF ""))))).
Proof.
  rewrite is_valid_icao_char, orb_true_iff, four_uppercase_shape,
    four_uppercase_newline_shape.
  split.
  - intros [(a & b & c & d & H & E) | (a & b & c & d & H & E)];
      exists a, b, c, d; auto.
  - intros (a & b & c & d & H & [E | E]); [left | right];
      exists a, b, c, d; auto.
Qed.

(** ** What [get_metar] hands on *)

Lemma strip_edges (s : string) :
  head_is_space (strip s) = false /\ last_is_space (strip s) = false.
Proof. destruct (strip_spec s) as (l & r & _ & _ & _ & H1 & H2). auto. Qed.

(** The run of [get_metar] on an accepted code: one GET, then at most
    error records; what it returns, and the one way it raises. *)
Lemma get_metar_run (w : World) (icao : string) (st : State) :
  is_valid_icao icao = true ->
  exists r logged,
    get_metar w icao st =
      (r, extend st (EvGet (metar_url icao) :: map EvLogError logged))
    /\ match r with
       | Ok s =>
           s = metar_network_placeholder \/ s = metar_empty_placeholder
           \/ exists resp, http_get w (metar_url icao) = inl resp
                           /\ s = strip (resp_text resp) /\ truthy s = true
       | Raise e =>
           http_get w (metar_url icao) = inr e /\ request_failure e = false
       end.
Proof.
  intros H. unfold get_metar. rewrite H. cbn [negb].
  unfold try_except, bind, requests_get, emit, raise_for_status, logging_error,
    emit, extend, request_failure.
  destruct (http_get w (metar_url icao)) as [resp | e] eqn:G; run_step.
  - destruct (is_error_status resp); run_step.
    + eexists _, [_]. cbn [map]. rewrite <- app_assoc.
      split; [reflexivity | left; reflexivity].
    + destruct (truthy (strip (resp_text resp))) eqn:T; eexists _, [];
        (split; [reflexivity|]).
      * right. right. exists resp. auto.
      * right. left. reflexivity.
  - destruct (isinstance e RequestException) eqn:E; run_step.
    + eexists _, [_]. cbn [map]. rewrite <- app_assoc.
      split; [reflexivity | left; reflexivity].
    + eexists _, []. split; [reflexivity | split; [reflexivity | exact E]].
Qed.

(** X2.  Whatever the input and whatever the network answers, a string that
    [get_metar] returns is never empty and neither starts nor ends with
    whitespace. *)
Theorem get_metar_result_trimmed
    (w : World) (icao : string) (st : State) (s : string) :
  fst (get_metar w icao st) = Ok s ->
  truthy s = true /\ head_is_space s = false /\ last_is_space s = false.
Proof.
  destruct (is_valid_icao icao) eqn:V.
  - destruct (get_metar_run w icao st V) as (r & logged & E & Hr).
    rewrite E. cbn [fst]. intros ->.
    destruct Hr as [-> | [-> | (resp & _ & -> & T)]]; [repeat split.. |].
    split; [exact T | apply strip_edges].
  - unfold get_metar. rewrite V. cbn. intros E. injection E as <-.
    repeat split.
Qed.

Lemma get_metar_result_trimmed_witness :
  fst (get_metar report_world "KJFK" (initial None)) = Ok "KJFK 211951Z 18010KT"
  /\ truthy "KJFK 211951Z 18010KT" = true
  /\ head_is_space "KJFK 211951Z 18010KT" = false
  /\ last_is_space "KJFK 211951Z 18010KT" = false.
Proof.
  split; [reflexivity|].
  apply (get_metar_result_trimmed report_world "KJFK" (initial None)).
  reflexivity.
Defined.

(** ** The decoder on a report *)

(** X3.  An input in which neither marker text occurs is handed to the
    decoder library once, as it is; the decoder returns the library's text,
    or, whatever the library raises, the decoding-error placeholder after
    one error record.  It returns normally either way. *)
Theorem decode_metar_decodes (w : World) (metar : string) (st : State) :
  ~ (exists pre post, metar = pre ++ "METAR data not available." ++ post) ->
  ~ (exists pre post, metar = pre ++ "Invalid ICAO code." ++ post) ->
  decode_metar w metar st =
    match metar_string w metar with
    | inl decoded => (Ok decoded, extend st [EvMetar metar])
    | inr e =>
        (Ok "Error decoding METAR.",
         extend st [EvMetar metar;
                    EvLogError ("Error decoding METAR: " ++ str_exn e)])
    end.
Proof.
  intros H1 H2. apply decode_metar_unguarded.
  - destruct (str_in "METAR data not available." metar) eqn:E; [|reflexivity].
    exfalso. apply H1, str_in_spec, E.
  - destruct (str_in "Invalid ICAO code." metar) eqn:E; [|reflexivity].
    exfalso. apply H2, str_in_spec, E.
Qed.

Lemma decode_metar_decodes_witness :
  decode_metar report_world "KJFK 211951Z" (initial None) =
    (Ok "Error decoding METAR.",
     extend (initial None)
       [EvMetar "KJFK 211951Z";
        EvLogError
          "Error decoding METAR: Unparsed groups in body while processing 'KJFK 211951Z'"]).
Proof.
  apply (decode_metar_decodes report_world "KJFK 211951Z" (initial None)).
  - intros H. apply str_in_spec in H. discriminate H.
  - intros H. apply str_in_spec in H. discriminate H.
Defined.

(** ** The TAF fetcher: failures, exceptions and what [findall] selects *)

(** The first item without text, counted from [i]. *)
Lemma first_none_first (parts : list (option string)) (i : nat) :
  In None parts ->
  exists k,
    first_none i parts = Some (i + k)
    /\ nth_error parts k = Some None
    /\ (forall j, j < k -> nth_error parts j <> Some None).
Proof.
  revert i. induction parts as [|[s|] parts IH]; intros i H.
  - destruct H.
  - destruct H as [H | H]; [discriminate H|].
    destruct (IH (S i) H) as (k & E & N & F). exists (S k). cbn [first_none].
    rewrite E. split; [f_equal; lia|]. split; [exact N|].
    intros [|j] Hj; cbn; [discriminate | apply F; lia].
  - exists 0. cbn. split; [f_equal; lia|]. split; [reflexivity|].
    intros j Hj. lia.
Qed.

(** The run of [get_taf] when an element that [findall] returns has no
    text. *)
Lemma get_taf_missing_text
    (w : World) (icao : string) (st : State) (r : Response) (root : ET.Element) :
  is_valid_icao icao = true ->
  http_get w (taf_url icao) = inl r ->
  is_error_status r = false ->
  all_space (resp_text r) = false ->
  xml_fromstring w (resp_text r) = inl root ->
  In None (map ET.text (ET.findall taf_text_path root)) ->
  exists i,
    get_taf w icao st =
      (Raise (join_type_error i), extend st [EvGet (taf_url icao)])
    /\ first_none 0 (map ET.text (ET.findall taf_text_path root)) = Some i.
Proof.
  intros V G S B X I.
  rewrite (get_taf_parsed w icao st V r root G S B X).
  destruct (first_none_first _ 0 I) as (k & E & _).
  destruct (map ET.text (ET.findall taf_text_path root)) as [|t texts];
    [destruct I|].
  cbv zeta. rewrite E. exists (0 + k). split; reflexivity.
Qed.

(** X4.  A [RequestException] of the TAF request and an answer with a 4xx
    or 5xx status end the same way: [get_taf] returns its placeholder, after
    one GET and one error record that carries the message of the failure. *)
Theorem get_taf_absorbs_request_failure
    (w : World) (icao : string) (st : State) :
  is_valid_icao icao = true ->
  match http_get w (taf_url icao) with
  | inl r => is_error_status r = true
  | inr e => request_failure e = true
  end ->
  get_taf w icao st =
    (Ok "TAF data not available.",
     extend st
       [EvGet (taf_url icao);
        EvLogError
          ("Error fetching/parsing TAF: "
           ++ match http_get w (taf_url icao) with
              | inl r => http_error_msg r
              | inr e => str_exn e
              end)]).
Proof.
  intros V H. destruct (http_get w (taf_url icao)) as [r | e] eqn:G.
  - exact (get_taf_error_status w icao st V r G H).
  - rewrite (get_taf_transport_failure w icao st V e G).
    unfold taf_failure_caught. unfold request_failure in H. rewrite H.
    reflexivity.
Qed.

Lemma get_taf_absorbs_request_failure_witness :
  get_taf unavailable_world "KJFK" (initial None) =
    (Ok "TAF data not available.",
     extend (initial None)
       [EvGet (taf_url "KJFK");
        EvLogError
          "Error fetching/parsing TAF: 503 Server Error: Service Unavailable for url: u"])
  /\ get_taf timeout_world "KJFK" (initial None) =
    (Ok "TAF data not available.",
     extend (initial None)
       [EvGet (taf_url "KJFK");
        EvLogError "Error fetching/parsing TAF: Read timed out."]).
Proof.
  split.
  - apply (get_taf_absorbs_request_failure unavailable_world "KJFK" (initial None));
      reflexivity.
  - apply (get_taf_absorbs_request_failure timeout_world "KJFK" (initial None));
      reflexivity.
Defined.

(** X5.  When the answer is accepted (no 4xx or 5xx, body not blank) and
    parses, and some element that [findall] returns has no text, [get_taf]
    raises the [TypeError] of the join, which names the first such element;
    this happens after the GET, and nothing is logged. *)
Theorem get_taf_raises_on_missing_text
    (w : World) (icao : string) (st : State) (r : Response) (root : ET.Element) :
  is_valid_icao icao = true ->
  http_get w (taf_url icao) = inl r ->
  is_error_status r = false ->
  all_space (resp_text r) = false ->
  xml_fromstring w (resp_text r) = inl root ->
  In None (map ET.text (ET.findall taf_text_path root)) ->
  exists i,
    get_taf w icao st =
      (Raise (mkExn TypeError
                ("sequence item " ++ str_of_int (Z.of_nat i)
                 ++ ": expected str instance, NoneType found")),
       extend st [EvGet (taf_url icao)])
    /\ nth_error (map ET.text (ET.findall taf_text_path root)) i = Some None
    /\ (forall j, j < i ->
          nth_error (map ET.text (ET.findall taf_text_path root)) j <> Some None).
Proof.
  intros V G S B X I.
  destruct (get_taf_missing_text w icao st r root V G S B X I) as (i & E & N).
  destruct (first_none_first _ 0 I) as (k & E' & Hk & Hj).
  rewrite N in E'. injection E' as ->. exists (0 + k).
  split; [exact E|]. split; assumption.
Qed.

Lemma get_taf_raises_on_missing_text_witness :
  exists i,
    get_taf empty_text_world "KJFK" (initial None) =
      (Raise (mkExn TypeError
                ("sequence item " ++ str_of_int (Z.of_nat i)
                 ++ ": expected str instance, NoneType found")),
       extend (initial None) [EvGet (taf_url "KJFK")])
    /\ nth_error (map ET.text (ET.findall taf_text_path empty_text_tree)) i
       = Some None
    /\ (forall j, j < i ->
          nth_error (map ET.text (ET.findall taf_text_path empty_text_tree)) j
          <> Some None).
Proof.
  apply (get_taf_raises_on_missing_text empty_text_world "KJFK" (initial None)
           (ok_response empty_text_body) empty_text_tree); try reflexivity.
  left. reflexivity.
Defined.

(** Without a TAF element below the root, [findall] finds nothing. *)
Lemma findall_without_taf_below_root (root : ET.Element) :
  forallb (tag_free "TAF") (ET.children root) = true ->
  ET.findall taf_text_path root = [].
Proof.
  intros H. unfold ET.findall, taf_text_path. cbn [fold_left ET.select flat_map].
  rewrite app_nil_r.
  rewrite (flat_map_all_nil (ET.iter "TAF") (ET.children root)); [reflexivity|].
  apply Forall_forall. intros c Hc.
  apply (tag_free_walk "TAF" "text" c).
  exact (proj1 (forallb_forall _ _) H c Hc).
Qed.

(** X6.  The path looks below the root only: when no TAF element lies below
    the root, [get_taf] reports that there is no data, even if the root is
    itself a TAF element with [text] children. *)
Theorem get_taf_ignores_root_taf
    (w : World) (icao : string) (st : State) (r : Response) (root : ET.Element) :
  is_valid_icao icao = true ->
  http_get w (taf_url icao) = inl r ->
  is_error_status r = false ->
  all_space (resp_text r) = false ->
  xml_fromstring w (resp_text r) = inl root ->
  forallb (tag_free "TAF") (ET.children root) = true ->
  get_taf w icao st =
    (Ok "TAF data not available.", extend st [EvGet (taf_url icao)]).
Proof.
  intros V G S B X F.
  rewrite (get_taf_parsed w icao st V r root G S B X).
  rewrite (findall_without_taf_below_root root F). reflexivity.
Qed.

Lemma get_taf_ignores_root_taf_witness :
  ET.tag root_taf_tree = "TAF"
  /\ map ET.text (ET.children_tagged "text" root_taf_tree) = [Some "TAF KJFK 1"]
  /\ get_taf root_taf_world "KJFK" (initial None) =
     (Ok "TAF data not available.", extend (initial None) [EvGet (taf_url "KJFK")]).
Proof.
  split; [reflexivity|]. split; [reflexivity|].
  apply (get_taf_ignores_root_taf root_taf_world "KJFK" (initial None)
           (ok_response root_taf_body) root_taf_tree);
    reflexivity.
Defined.

Section WalkPermutation.

Variables outer inner : string.

Lemma doc_walk_under (e : ET.Element) :
  doc_walk outer inner true e =
    ((if ET.has_tag inner e then [e] else []) ++ doc_walk outer inner false e)%list.
Proof. destruct e as [t x cs]. reflexivity. Qed.

Lemma Permutation_flat_map_pointwise {A B} (f g : A -> list B) (l : list A) :
  Forall (fun a => Permutation (f a) (g a)) l ->
  Permutation (flat_map f l) (flat_map g l).
Proof.
  induction 1 as [|a l Ha _ IH]; cbn; [constructor|].
  apply Permutation_app; assumption.
Qed.

Lemma Permutation_flat_map_split {A B} (f g : A -> list B) (l : list A) :
  Permutation (flat_map (fun a => f a ++ g a)%list l)
    (flat_map f l ++ flat_map g l)%list.
Proof.
  induction l as [|a l IH]; cbn; [constructor|].
  rewrite <- !app_assoc. apply Permutation_app_head.
  rewrite IH. apply Permutation_app_swap_app.
Qed.

(** With or without nesting, the two selectors reach every [inner] child of
    an [outer] element once. *)
Lemma selected_permutation (e : ET.Element) :
  Permutation (flat_map (ET.children_tagged inner) (ET.iter outer e))
    (doc_walk outer inner false e).
Proof.
  induction e as [t x cs IH] using Element_forall_ind.
  cbn [ET.iter doc_walk andb app]. rewrite flat_map_app, flat_map_nested.
  assert (Hcs : Permutation
                  (flat_map (fun c => flat_map (ET.children_tagged inner)
                                        (ET.iter outer c)) cs)
                  (flat_map (doc_walk outer inner false) cs))
    by (apply Permutation_flat_map_pointwise; exact IH).
  destruct (String.eqb t outer).
  - cbn [flat_map]. rewrite app_nil_r.
    rewrite (flat_map_pointwise (doc_walk outer inner true)
               (fun c => (if ET.has_tag inner c then [c] else [])
                         ++ doc_walk outer inner false c)%list cs)
      by (apply Forall_forall; intros c _; apply doc_walk_under).
    rewrite Permutation_flat_map_split, flat_map_singletons.
    apply Permutation_app_head. exact Hcs.
  - exact Hcs.
Qed.

End WalkPermutation.

Lemma findall_taf_text_selection (root : ET.Element) :
  Permutation (ET.findall taf_text_path root) (doc_taf_texts root).
Proof.
  unfold ET.findall, taf_text_path, doc_taf_texts.
  cbn [fold_left ET.select flat_map]. rewrite app_nil_r, flat_map_nested.
  apply Permutation_flat_map_pointwise, Forall_forall. intros c _.
  apply selected_permutation.
Qed.

Lemma first_none_of_absent (parts : list (option string)) (i : nat) :
  ~ In None parts -> first_none i parts = None /\ map Some (somes parts) = parts.
Proof.
  revert i. induction parts as [|[s|] parts IH]; intros i H; cbn.
  - split; reflexivity.
  - destruct (IH (S i)) as [H1 H2]; [intros I; apply H; right; exact I|].
    rewrite H1, H2. split; reflexivity.
  - exfalso. apply H. left. reflexivity.
Qed.

(** X7.  Also when TAF elements nest: if every [text] child of a TAF element
    below the root carries text and there is at least one, [get_taf]
    returns the newline-joined texts of exactly these elements, each taken
    once, in some order. *)
Theorem get_taf_returns_all_texts
    (w : World) (icao : string) (st : State) (r : Response) (root : ET.Element) :
  is_valid_icao icao = true ->
  http_get w (taf_url icao) = inl r ->
  is_error_status r = false ->
  all_space (resp_text r) = false ->
  xml_fromstring w (resp_text r) = inl root ->
  doc_taf_texts root <> [] ->
  ~ In None (map ET.text (doc_taf_texts root)) ->
  exists texts,
    get_taf w icao st =
      (Ok (join (String LF "") texts), extend st [EvGet (taf_url icao)])
    /\ Permutation (map Some texts) (map ET.text (doc_taf_texts root)).
Proof.
  intros V G S B X NE NN.
  pose proof (Permutation_map ET.text (findall_taf_text_selection root)) as P.
  rewrite (get_taf_parsed w icao st V r root G S B X).
  assert (NN' : ~ In None (map ET.text (ET.findall taf_text_path root))).
  { intros I. apply NN. exact (Permutation_in _ P I). }
  destruct (map ET.text (ET.findall taf_text_path root)) as [|t texts] eqn:F.
  - exfalso. apply Permutation_nil in P. apply map_eq_nil in P. contradiction.
  - cbv zeta. destruct (first_none_of_absent (t :: texts) 0 NN') as [H1 H2].
    rewrite H1. exists (somes (t :: texts)). split; [reflexivity|].
    rewrite H2. exact P.
Qed.

Lemma get_taf_returns_all_texts_witness :
  exists texts,
    get_taf nested_world "KJFK" (initial None) =
      (Ok (join (String LF "") texts),
       extend (initial None) [EvGet (taf_url "KJFK")])
    /\ Permutation (map Some texts) (map ET.text (doc_taf_texts nested_tree)).
Proof.
  apply (get_taf_returns_all_texts nested_world "KJFK" (initial None)
           (ok_response nested_body) nested_tree); try reflexivity.
  - discriminate.
  - cbn. intros [H | [H | []]]; discriminate H.
Defined.

(** ** The notifier with a webhook *)

Lemma extend_nil (st : State) : extend st [] = st.
Proof. destruct st as [h tr]. unfold extend. cbn. rewrite app_nil_r. reflexivity. Qed.

Lemma extend_extend (st : State) (a b : list event) :
  extend (extend st a) b = extend st (a ++ b).
Proof. unfold extend. cbn. rewrite app_assoc. reflexivity. Qed.

(** The run of [send_to_slack] with a webhook and a complete brief. *)
Lemma send_to_slack_run
    (w : World) (message : dict) (icao : string) (st : State)
    (url m t d : string) :
  SLACK_WEBHOOK_URL st = Some url ->
  truthy url = true ->
  dict_get message "metar" = Some m ->
  dict_get message "taf" = Some t ->
  dict_get message "decoded_metar" = Some d ->
  send_to_slack w message icao st =
    (fst (slack_post w url (slack_payload w icao m t d)),
     extend st (snd (slack_post w url (slack_payload w icao m t d)))).
Proof.
  intros H T Hm Ht Hd.
  unfold send_to_slack, bind, read_webhook, getitem. rewrite H, T, Hm, Ht, Hd.
  unfold ret at 1 2 3.
  unfold try_except, bind, requests_post, raise_for_status, logging_info,
    logging_error, emit, extend, slack_post, request_failure.
  run_step.
  destruct (http_post w url (slack_payload w icao m t d)) as [r | e]; run_step.
  - destruct (is_error_status r); run_step; rewrite <- app_assoc; reflexivity.
  - destruct (isinstance e RequestException); run_step;
      [rewrite <- app_assoc|]; reflexivity.
Qed.

Lemma slack_post_requests (w : World) (url : string) (payload : json) :
  requests_of (snd (slack_post w url payload)) = [EvPost url payload].
Proof.
  unfold slack_post.
  destruct (http_post w url payload) as [r | e];
    [destruct (is_error_status r) | destruct (request_failure e)]; reflexivity.
Qed.

(** X8.  With a non-empty webhook URL and the three fields present,
    [send_to_slack] makes exactly one request, a POST of the payload to that
    URL.  A response is logged as a success, or as an error when its status
    is 4xx or 5xx; a [RequestException] is logged as an error; in these
    cases the function returns normally.  An exception of another class is
    not caught: it leaves the function after the POST, and nothing is
    logged. *)
Theorem send_to_slack_posts_once
    (w : World) (message : dict) (icao : string) (st : State)
    (url m t d : string) :
  SLACK_WEBHOOK_URL st = Some url ->
  truthy url = true ->
  dict_get message "metar" = Some m ->
  dict_get message "taf" = Some t ->
  dict_get message "decoded_metar" = Some d ->
  let payload := slack_payload w icao m t d in
  send_to_slack w message icao st =
    match http_post w url payload with
    | inl r =>
        (Ok tt,
         extend st
           [EvPost url payload;
            if is_error_status r
            then EvLogError ("Error sending data to Slack: " ++ http_error_msg r)
            else EvLogInfo "Data sent to Slack successfully."])
    | inr e =>
        if isinstance e RequestException
        then (Ok tt,
              extend st
                [EvPost url payload;
                 EvLogError ("Error sending data to Slack: " ++ str_exn e)])
        else (Raise e, extend st [EvPost url payload])
    end.
Proof.
  intros H T Hm Ht Hd payload.
  rewrite (send_to_slack_run w message icao st url m t d H T Hm Ht Hd).
  fold payload. unfold slack_post, request_failure.
  destruct (http_post w url payload) as [r | e];
    [|destruct (isinstance e RequestException)]; reflexivity.
Qed.

Lemma send_to_slack_posts_once_witness :
  send_to_slack report_world
    [("decoded_metar", "d"); ("taf", "t"); ("metar", "m")] "kjfk"
    (initial (Some example_hook))
  = (Ok tt,
     extend (initial (Some example_hook))
       [EvPost example_hook (slack_payload report_world "kjfk" "m" "t" "d");
        EvLogInfo "Data sent to Slack successfully."]).
Proof.
  apply (send_to_slack_posts_once report_world
           [("decoded_metar", "d"); ("taf", "t"); ("metar", "m")] "kjfk"
           (initial (Some example_hook)) example_hook "m" "t" "d");
    reflexivity.
Defined.

(** X9.  With a non-empty webhook URL and a brief that lacks one of its
    three fields, [send_to_slack] raises [KeyError] for the first missing
    one (in the order metar, taf, decoded_metar) before anything is posted or
    logged. *)
Theorem send_to_slack_missing_key
    (w : World) (message : dict) (icao : string) (st : State) (url : string) :
  SLACK_WEBHOOK_URL st = Some url ->
  truthy url = true ->
  dict_get message "metar" = None \/ dict_get message "taf" = None
  \/ dict_get message "decoded_metar" = None ->
  exists key,
    send_to_slack w message icao st = (Raise (mkExn KeyError ("'" ++ key ++ "'")), st)
    /\ dict_get message key = None
    /\ (key = "metar"
        \/ (key = "taf" /\ dict_get message "metar" <> None)
        \/ (key = "decoded_metar" /\ dict_get message "metar" <> None
            /\ dict_get message "taf" <> None)).
Proof.
  intros H T Hmiss.
  unfold send_to_slack, bind, read_webhook, getitem. rewrite H, T.
  destruct (dict_get message "metar") as [m|] eqn:Hm.
  2:{ exists "metar". repeat split; auto. }
  destruct (dict_get message "taf") as [t|] eqn:Ht.
  2:{ exists "taf". repeat split; auto. right. left. split; congruence. }
  destruct (dict_get message "decoded_metar") as [d|] eqn:Hd.
  2:{ exists "decoded_metar". repeat split; auto. right. right.
      repeat split; congruence. }
  exfalso. destruct Hmiss as [E | [E | E]]; discriminate E.
Qed.

Lemma send_to_slack_missing_key_witness :
  exists key,
    send_to_slack report_world [("metar", "m"); ("decoded_metar", "d")] "KJFK"
      (initial (Some example_hook))
    = (Raise (mkExn KeyError ("'" ++ key ++ "'")), initial (Some example_hook))
    /\ dict_get [("metar", "m"); ("decoded_metar", "d")] key = None
    /\ (key = "metar"
        \/ (key = "taf"
            /\ dict_get [("metar", "m"); ("decoded_metar", "d")] "metar" <> None)
        \/ (key = "decoded_metar"
            /\ dict_get [("metar", "m"); ("decoded_metar", "d")] "metar" <> None
            /\ dict_get [("metar", "m"); ("decoded_metar", "d")] "taf" <> None)).
Proof.
  apply (send_to_slack_missing_key report_world
           [("metar", "m"); ("decoded_metar", "d")] "KJFK"
           (initial (Some example_hook)) example_hook);
    [reflexivity | reflexivity | right; left; reflexivity].
Defined.

(** X10.  [send_to_slack] never makes more than one request, and the only
    request it can make is a POST to the webhook URL of the state, which is
    then not empty: an unset or empty URL means no request at all. *)
Theorem send_to_slack_requests
    (w : World) (message : dict) (icao : string) (st : State) :
  exists evs,
    snd (send_to_slack w message icao st) = extend st evs
    /\ (requests_of evs = []
        \/ exists url payload,
             requests_of evs = [EvPost url payload]
             /\ SLACK_WEBHOOK_URL st = Some url /\ truthy url = true).
Proof.
  destruct (SLACK_WEBHOOK_URL st) as [url|] eqn:H.
  2:{ eexists [_]. unfold send_to_slack, bind, read_webhook. rewrite H.
      split; [reflexivity | left; reflexivity]. }
  destruct (truthy url) eqn:T.
  2:{ eexists [_]. unfold send_to_slack, bind, read_webhook. rewrite H, T.
      split; [reflexivity | left; reflexivity]. }
  destruct (dict_get message "metar") as [m|] eqn:Hm.
  2:{ exists []. unfold send_to_slack, bind, read_webhook, getitem.
      rewrite H, T, Hm, extend_nil. split; [reflexivity | left; reflexivity]. }
  destruct (dict_get message "taf") as [t|] eqn:Ht.
  2:{ exists []. unfold send_to_slack, bind, read_webhook, getitem.
      rewrite H, T, Hm, Ht, extend_nil. split; [reflexivity | left; reflexivity]. }
  destruct (dict_get message "decoded_metar") as [d|] eqn:Hd.
  2:{ exists []. unfold send_to_slack, bind, read_webhook, getitem.
      rewrite H, T, Hm, Ht, Hd, extend_nil.
      split; [reflexivity | left; reflexivity]. }
  eexists. rewrite (send_to_slack_run w message icao st url m t d H T Hm Ht Hd).
  split; [reflexivity|]. right. exists url, (slack_payload w icao m t d).
  split; [apply slack_post_requests | split; [reflexivity | exact T]].
Qed.

(** ** The whole run, stage by stage *)

Lemma requests_of_app (a b : list event) :
  requests_of (a ++ b) = (requests_of a ++ requests_of b)%list.
Proof. apply filter_app. Qed.

Lemma requests_of_log_errors (logged : list string) :
  requests_of (map EvLogError logged) = [].
Proof. induction logged as [|l logged IH]; [reflexivity | exact IH]. Qed.

(** [get_weather_brief] as a chain of its stages. *)
Lemma get_weather_brief_stages (w : World) (icao : string) (st : State) :
  get_weather_brief w icao st =
    match get_metar w icao (extend st [brief_banner w icao]) with
    | (Raise e, st2) => (Raise e, st2)
    | (Ok metar, st2) =>
        match get_taf w icao st2 with
        | (Raise e, st3) => (Raise e, st3)
        | (Ok taf, st3) =>
            match decode_metar w metar st3 with
            | (Raise e, st4) => (Raise e, st4)
            | (Ok decoded, st4) =>
                send_to_slack w
                  [("metar", metar); ("taf", taf); ("decoded_metar", decoded)]
                  icao (extend st4 (brief_prints w icao metar taf decoded))
            end
        end
    end.
Proof.
  unfold get_weather_brief, bind, logging_info, print.
  change (emit (EvLogInfo ("Fetching weather briefing for " ++ str_upper w icao ++ "..."))
            st)
    with (Ok tt, extend st [brief_banner w icao]).
  cbv beta iota.
  destruct (get_metar w icao (extend st [brief_banner w icao]))
    as [[metar | e] st2]; [|reflexivity].
  destruct (get_taf w icao st2) as [[taf | e] st3]; [|reflexivity].
  destruct (decode_metar w metar st3) as [[decoded | e] st4]; [|reflexivity].
  unfold emit, extend, brief_prints. cbn [SLACK_WEBHOOK_URL trace].
  rewrite <- !app_assoc. reflexivity.
Qed.

(** The run of [get_taf] on an accepted code: one GET, then at most error
    records. *)
Lemma get_taf_run (w : World) (icao : string) (st : State) :
  is_valid_icao icao = true ->
  exists r logged,
    get_taf w icao st =
      (r, extend st (EvGet (taf_url icao) :: map EvLogError logged)).
Proof.
  intros V.
  destruct (http_get w (taf_url icao)) as [r | e] eqn:G.
  2:{ rewrite (get_taf_transport_failure w icao st V e G). unfold taf_failure.
      destruct (taf_failure_caught e); [eexists _, [_] | eexists _, []];
        reflexivity. }
  destruct (is_error_status r) eqn:S.
  { rewrite (get_taf_error_status w icao st V r G S). eexists _, [_]. reflexivity. }
  destruct (all_space (resp_text r)) eqn:B.
  { rewrite (get_taf_blank w icao st V r G S B). eexists _, []. reflexivity. }
  destruct (xml_fromstring w (resp_text r)) as [root | e] eqn:X.
  2:{ rewrite (get_taf_parser_raises w icao st V r e G S B X). unfold taf_failure.
      destruct (taf_failure_caught e); [eexists _, [_] | eexists _, []];
        reflexivity. }
  rewrite (get_taf_parsed w icao st V r root G S B X).
  destruct (map ET.text (ET.findall taf_text_path root)) as [|t texts].
  - eexists _, []. reflexivity.
  - cbv zeta. destruct (first_none 0 (t :: texts)); eexists _, []; reflexivity.
Qed.

(** The run of [decode_metar]: it returns normally and makes no request. *)
Lemma decode_metar_run (w : World) (metar : string) (st : State) :
  exists s evs,
    decode_metar w metar st = (Ok s, extend st evs) /\ requests_of evs = [].
Proof.
  destruct (str_in "METAR data not available." metar) eqn:E1.
  { exists metar, []. unfold decode_metar. rewrite E1, extend_nil.
    split; reflexivity. }
  destruct (str_in "Invalid ICAO code." metar) eqn:E2.
  { exists metar, []. unfold decode_metar. rewrite E1, E2, extend_nil.
    split; reflexivity. }
  rewrite (decode_metar_unguarded w metar st E1 E2).
  destruct (metar_string w metar) as [d | e]; eexists _, _;
    (split; [reflexivity|]); reflexivity.
Qed.

(** The run of [send_to_slack] on the brief that [get_weather_brief]
    builds. *)
Lemma send_to_slack_brief
    (w : World) (icao metar taf decoded : string) (st : State) :
  exists r evs,
    send_to_slack w
      [("metar", metar); ("taf", taf); ("decoded_metar", decoded)] icao st
    = (r, extend st evs)
    /\ (requests_of evs = []
        \/ exists url payload,
             requests_of evs = [EvPost url payload]
             /\ SLACK_WEBHOOK_URL st = Some url /\ truthy url = true).
Proof.
  destruct (SLACK_WEBHOOK_URL st) as [url|] eqn:H.
  2:{ eexists _, [_]. unfold send_to_slack, bind, read_webhook. rewrite H.
      split; [reflexivity | left; reflexivity]. }
  destruct (truthy url) eqn:T.
  2:{ eexists _, [_]. unfold send_to_slack, bind, read_webhook. rewrite H, T.
      split; [reflexivity | left; reflexivity]. }
  eexists _, _.
  rewrite (send_to_slack_run w
             [("metar", metar); ("taf", taf); ("decoded_metar", decoded)]
             icao st url metar taf decoded H T eq_refl eq_refl eq_refl).
  split; [reflexivity|]. right. exists url, (slack_payload w icao metar taf decoded).
  split; [apply slack_post_requests | split; [reflexivity | exact T]].
Qed.



(** X12.  For an accepted ICAO code, in a run in which the METAR request is
    answered by a response or a [RequestException], the requests of
    [get_weather_brief] are, in this order, the METAR GET, the TAF GET, and
    then at most one POST, which goes to the non-empty webhook URL; nothing
    else is requested. *)
Theorem get_weather_brief_requests (w : World) (icao : string) (st : State) :
  is_valid_icao icao = true ->
  answered (http_get w (metar_url icao)) ->
  exists evs posts,
    snd (get_weather_brief w icao st) = extend st evs
    /\ requests_of evs
       = ([EvGet (metar_url icao); EvGet (taf_url icao)] ++ posts)%list
    /\ (posts = []
        \/ exists url payload,
             posts = [EvPost url payload]
             /\ SLACK_WEBHOOK_URL st = Some url /\ truthy url = true).
Proof.
  intros V A. rewrite get_weather_brief_stages.
  destruct (get_metar_run w icao (extend st [brief_banner w icao]) V)
    as (rm & lm & Em & Hm).
  rewrite Em. destruct rm as [metar | e].
  2:{ exfalso. destruct Hm as [G F]. unfold answered in A. rewrite G in A.
      congruence. }
  destruct (get_taf_run w icao
              (extend (extend st [brief_banner w icao])
                 (EvGet (metar_url icao) :: map EvLogError lm)) V)
    as (r & lt & Et).
  rewrite Et. destruct r as [taf | e].
  2:{ eexists _, []. cbn [snd]. rewrite !extend_extend.
      split; [reflexivity|]. split; [|left; reflexivity].
      rewrite !requests_of_app. cbn [requests_of filter is_request app].
      rewrite !requests_of_log_errors. reflexivity. }
  match goal with
  | |- context [decode_metar w metar ?s] =>
      destruct (decode_metar_run w metar s) as (decoded & ed & Ed & Rd)
  end.
  rewrite Ed.
  match goal with
  | |- context [send_to_slack w ?msg icao ?s] =>
      destruct (send_to_slack_brief w icao metar taf decoded s)
        as (rs & es & Es & Rs)
  end.
  rewrite Es. cbn [snd]. rewrite !extend_extend.
  eexists _, (requests_of es). split; [reflexivity|]. split.
  - rewrite !requests_of_app. cbn [requests_of filter is_request app].
    fold (requests_of (map EvLogError lm)). fold (requests_of (map EvLogError lt)).
    fold (requests_of ed). fold (requests_of es).
    rewrite !requests_of_log_errors, Rd. reflexivity.
  - destruct Rs as [Rs | (url & payload & Rs & H & T)]; [left; exact Rs|].
    right. exists url, payload. split; [exact Rs|]. split; [exact H | exact T].
Qed.

Lemma get_weather_brief_requests_witness :
  exists evs posts,
    snd (get_weather_brief two_tafs_world "KJFK" (initial (Some example_hook)))
    = extend (initial (Some example_hook)) evs
    /\ requests_of evs
       = ([EvGet (metar_url "KJFK"); EvGet (taf_url "KJFK")] ++ posts)%list
    /\ (posts = []
        \/ exists url payload,
             posts = [EvPost url payload]
             /\ SLACK_WEBHOOK_URL (initial (Some example_hook)) = Some url
             /\ truthy url = true).
Proof.
  apply (get_weather_brief_requests two_tafs_world "KJFK"
           (initial (Some example_hook))).
  - reflexivity.
  - exact I.
Defined.

(** X13.  For an accepted ICAO code, in a run in which the METAR request is
    answered by a response or a [RequestException] and the TAF answer is
    accepted and parses: if an element that [findall] returns has no text,
    [get_weather_brief] raises the [TypeError] of the join, after the two
    GETs and before the decoder is called or anything is printed or
    posted. *)
Theorem get_weather_brief_raises_on_missing_text
    (w : World) (icao : string) (st : State) (r : Response) (root : ET.Element) :
  is_valid_icao icao = true ->
  answered (http_get w (metar_url icao)) ->
  http_get w (taf_url icao) = inl r ->
  is_error_status r = false ->
  all_space (resp_text r) = false ->
  xml_fromstring w (resp_text r) = inl root ->
  In None (map ET.text (ET.findall taf_text_path root)) ->
  exists i logged,
    get_weather_brief w icao st =
      (Raise (join_type_error i),
       extend st
         (brief_banner w icao :: EvGet (metar_url icao)
          :: map EvLogError logged ++ [EvGet (taf_url icao)])).
Proof.
  intros V A G S B X I. rewrite get_weather_brief_stages.
  destruct (get_metar_run w icao (extend st [brief_banner w icao]) V)
    as (rm & lm & Em & Hm).
  rewrite Em. destruct rm as [metar | e].
  2:{ exfalso. destruct Hm as [G' F]. unfold answered in A. rewrite G' in A.
      congruence. }
  match goal with
  | |- context [get_taf w icao ?s] =>
      destruct (get_taf_missing_text w icao s r root V G S B X I) as (i & E & _)
  end.
  rewrite E. exists i, lm. rewrite !extend_extend. reflexivity.
Qed.

Lemma get_weather_brief_raises_on_missing_text_witness :
  exists i logged,
    get_weather_brief empty_text_world "KJFK" (initial (Some example_hook)) =
      (Raise (join_type_error i),
       extend (initial (Some example_hook))
         (brief_banner empty_text_world "KJFK" :: EvGet (metar_url "KJFK")
          :: map EvLogError logged ++ [EvGet (taf_url "KJFK")])).
Proof.
  apply (get_weather_brief_raises_on_missing_text empty_text_world "KJFK"
           (initial (Some example_hook)) (ok_response empty_text_body)
           empty_text_tree); try reflexivity; try exact I.
  left. reflexivity.
Defined.

(** ** The validator at concrete inputs *)

Lemma is_valid_icao_exact_witness :
  is_valid_icao "EGLL" = true /\ is_valid_icao ("EGLL" ++ String LF "") = true.
Proof.
  split.
  - apply (proj2 (is_valid_icao_exact "EGLL")).
    exists "E"%char, "G"%char, "L"%char, "L"%char.
    split; [repeat split | left; reflexivity].
  - apply (proj2 (is_valid_icao_exact ("EGLL" ++ String LF ""))).
    exists "E"%char, "G"%char, "L"%char, "L"%char.
    split; [repeat split | right; reflexivity].
Defined.
